(** * fiber-multitenant: the tenant connection store (tenantstore/store.go)

    A shallow embedding of [TenantStore] and its methods.  The store is a
    Go struct mutated in place; here every method is a state transformer
    over a [Machine]: the store's fields together with the outside
    [World] (the gorm / database/sql calls made so far, the next fresh
    connection pointer and the goroutines that are asleep).

    Calls into gorm and database/sql are answered by an [oracle], a
    function of the call and of the whole history of earlier calls, so a
    driver that fails once and then succeeds is one oracle among others.

    Each public method runs to completion before the next starts (the
    store's mutexes make the sections they bracket atomic); the only
    goroutine the code starts, the reset of a health flag after
    [HealthCheckInterval], is an explicit step [wakeReset]. *)

From Stdlib Require Import ZArith String Ascii List.
From stdpp Require Import base option list gmap strings fin_maps.

Open Scope string_scope.

(** ** Go values *)

(** A [*gorm.DB] (and the [*sql.DB] under it) is a pointer; two
    connections are the same instance when the pointers are equal. *)
Definition conn := nat.

(** A [context.Context] handed through to [Exec] and [PingContext]. *)
Definition Context := nat.

(** Go [error] values: those the driver hands back, and those the store
    builds with [fmt.Errorf format args...]. *)
Inductive error : Type :=
| DriverError (msg : string)
| Errorf (format : string) (args : list arg)
with arg : Type :=
| AStr (s : string)
| AErr (e : error)
| AErrs (es : list error).

Inductive result (A : Type) : Type :=
| Ok (a : A)
| Err (e : error).
Arguments Ok {A} a.
Arguments Err {A} e.

(** ** The outside world *)

(** The calls the store makes into gorm and database/sql. *)
Inductive event : Type :=
| EvOpen (dsn : string)                      (* gorm.Open(postgres.Open(dsn), ...) *)
| EvExec (ctx : Context) (db : conn) (sql : string)  (* db.WithContext(ctx).Exec(sql) *)
| EvAutoMigrate (db : conn) (models : list string)   (* db.AutoMigrate(models...) *)
| EvDB (db : conn)                           (* db.DB() *)
| EvPing (ctx : Context) (db : conn)         (* sqlDB.PingContext(ctx) *)
| EvClose (db : conn).                       (* sqlDB.Close() *)

(** Calls that take part in constructing a tenant connection:
    provisioning ([Exec]), [gorm.Open] and [AutoMigrate]. *)
Definition is_construction (e : event) : bool :=
  match e with
  | EvOpen _ | EvExec _ _ _ | EvAutoMigrate _ _ => true
  | EvDB _ | EvPing _ _ | EvClose _ => false
  end.

(** A call with its outcome: [None] is a nil error. *)
Definition call : Type := event * option error.

(** The errors of the calls that failed, oldest first. *)
Definition failures (cs : list call) : list error := omap snd cs.

(** A close attempt on [db]: [DB()] was called, and [Close()] too unless
    [DB()] failed. *)
Definition close_attempted (db : conn) (cs : list call) : Prop :=
  ∃ o, (EvDB db, o) ∈ cs ∧ (o = None → ∃ o', (EvClose db, o') ∈ cs).

(** The error an [Errorf] wraps through its final [%w] verb. *)
Definition cause (e : error) : option error :=
  match e with
  | DriverError _ => None
  | Errorf _ args =>
      match last args with
      | Some (AErr c) => Some c
      | _ => None
      end
  end.

Definition Oracle : Type := list call → event → option error.

Record World : Type := mkWorld {
  calls : list call;        (* every external call so far, oldest first *)
  next_conn : conn;         (* the pointer the next successful Open returns *)
  sleeping : list (string * Z)
                            (* reset goroutines in time.Sleep: the tenant and
                               the duration slept, nanoseconds *)
}.

(** ** Config and TenantStore *)

Record Config : Type := mkConfig {
  MasterDSN : string;
  GetTenantDSN : string → string;
  AutoMigrate : bool;
  Models : list string;
  ConnectionTimeout : Z;       (* time.Duration, nanoseconds *)
  HealthCheckInterval : Z;
  Logger : string
}.

Definition second : Z := 1000000000.
Definition minute : Z := 60 * second.

Definition DefaultConfig (masterDSN : string) : Config :=
  {| MasterDSN := masterDSN;
     GetTenantDSN := λ tenantSchema,
       masterDSN ++ ("&search_path=" ++ tenantSchema ++ ",public");
     AutoMigrate := true;
     Models := [];
     ConnectionTimeout := 10 * second;
     HealthCheckInterval := 5 * minute;
     Logger := "logger.Silent" |}.

Record TenantStore : Type := mkStore {
  masterDB : conn;
  tenantDBs : gmap string conn;
  config : Config;
  healthCheckDone : gmap string bool
}.

Record Machine : Type := mkMachine {
  store : TenantStore;
  world : World
}.

(** Drop the first sleeping goroutine of tenant [x]. *)
Fixpoint remove_sleeper (x : string) (l : list (string * Z)) : list (string * Z) :=
  match l with
  | [] => []
  | y :: l => if decide (x = y.1) then l else y :: remove_sleeper x l
  end.

(** ** A state monad for the methods *)

Definition Run (S A : Type) : Type := S → A * S.

Definition ret {S A : Type} (a : A) : Run S A := λ s, (a, s).

Definition bind {S A B : Type} (m : Run S A) (k : A → Run S B) : Run S B :=
  λ s, let '(a, s') := m s in k a s'.

Notation "'let*' x := m 'in' k" := (bind m (λ x, k))
  (at level 10, x name, m at level 100, k at level 200, only parsing).
Notation "'do' m 'then' k" := (bind m (λ _, k))
  (at level 10, m at level 100, k at level 200, only parsing).

Definition inWorld {A : Type} (m : Run World A) : Run Machine A :=
  λ st, let '(a, w) := m (world st) in (a, mkMachine (store st) w).

Definition getStore : Run Machine TenantStore := λ st, (store st, st).

Definition modifyStore (f : TenantStore → TenantStore) : Run Machine unit :=
  λ st, (tt, mkMachine (f (store st)) (world st)).

(** [s.tenantDBs[k] = db] and [s.healthCheckDone[k] = b] *)
Definition setTenantDB (k : string) (db : conn) : Run Machine unit :=
  modifyStore (λ s, mkStore (masterDB s) (<[k := db]> (tenantDBs s))
                      (config s) (healthCheckDone s)).

Definition setHealthCheckDone (k : string) (b : bool) : Run Machine unit :=
  modifyStore (λ s, mkStore (masterDB s) (tenantDBs s) (config s)
                      (<[k := b]> (healthCheckDone s))).

(** [delete(s.tenantDBs, k)] and [delete(s.healthCheckDone, k)] *)
Definition deleteTenantDB (k : string) : Run Machine unit :=
  modifyStore (λ s, mkStore (masterDB s) (delete k (tenantDBs s))
                      (config s) (healthCheckDone s)).

Definition deleteHealthCheckDone (k : string) : Run Machine unit :=
  modifyStore (λ s, mkStore (masterDB s) (tenantDBs s) (config s)
                      (delete k (healthCheckDone s))).

(** Go's [m[k]] on a [map[string]bool]: the zero value when [k] is absent. *)
Definition flag (m : gmap string bool) (k : string) : bool :=
  default false (m !! k).

(** ** Package strings, as far as the middleware uses it *)

(** [strings.Index(s, substr)]: the first position of [substr], or -1. *)
Definition Index (s substr : string) : Z :=
  match String.index 0 substr s with
  | Some n => Z.of_nat n
  | None => (-1)%Z
  end.

(** The slice [s[:hi]]. *)
Definition slice_to (s : string) (hi : Z) : string :=
  substring 0 (Z.to_nat hi) s.

(** [strings.Split(s, sep)] for a separator of one byte, the only kind
    the package passes: the pieces between the separators, in order; a
    string without separator is its own single piece. *)
Fixpoint Split (s : string) (sep : ascii) : list string :=
  match s with
  | "" => [""]
  | String a s' =>
      if decide (a = sep) then "" :: Split s' sep
      else match Split s' sep with
           | piece :: pieces => String a piece :: pieces
           | [] => [String a ""]
           end
  end.

(** [strings.TrimPrefix(s, prefix)] *)
Definition TrimPrefix (s prefix : string) : string :=
  if String.prefix prefix s
  then substring (String.length prefix) (String.length s - String.length prefix) s
  else s.

(** ** Package middleware *)

Module Middleware.

(** Errors that reach the middleware: a [*fiber.Error], an error of the
    tenant store, or any other error a callback returns. *)
Inductive gerror : Type :=
| FiberError (code : nat) (message : string)
| StoreError (e : error)
| OtherError (message : string).

Definition StatusBadRequest : nat := 400.

(** [fiber.NewError(code, message)] *)
Definition NewError (code : nat) (message : string) : gerror :=
  FiberError code message.

(** A value kept under [c.Locals]: the middleware stores strings and
    [*gorm.DB] pointers, a route may store anything else. *)
Inductive local : Type :=
| LString (s : string)
| LDB (db : conn)
| LOther (tag : nat).

(** The parts of a [*fiber.Ctx] the package reads and writes. *)
Record Ctx : Type := mkCtx {
  Hostname : string;                  (* c.Hostname() *)
  Get : string → string;              (* c.Get(header), "" when absent *)
  Path : string;                      (* c.Path() *)
  Query : string → string;            (* c.Query(param), "" when absent *)
  UserContext : Context;              (* c.Context() *)
  Locals : gmap string local;         (* c.Locals(key) *)
  status : nat;                       (* response status *)
  body : option (gmap string string)  (* response body, a JSON object *)
}.

(** [c.Locals(key, value)] *)
Definition setLocal (key : string) (v : local) (c : Ctx) : Ctx :=
  mkCtx (Hostname c) (Get c) (Path c) (Query c) (UserContext c)
        (<[key := v]> (Locals c)) (status c) (body c).

(** [c.Status(code)] and [c.JSON(m)]; encoding a map of strings cannot fail. *)
Definition Status (code : nat) (c : Ctx) : Ctx :=
  mkCtx (Hostname c) (Get c) (Path c) (Query c) (UserContext c)
        (Locals c) code (body c).

Definition JSON (m : gmap string string) (c : Ctx) : Ctx * option gerror :=
  (mkCtx (Hostname c) (Get c) (Path c) (Query c) (UserContext c)
         (Locals c) (status c) (Some m), None).

(** *** resolver.go *)

Definition TenantContextKey : string := "tenant".

(** A resolver reads the request and returns a tenant and an error. *)
Definition TenantResolver : Type := Ctx → string * option gerror.

Definition SubdomainResolver : TenantResolver := λ c,
  let host := Hostname c in
  let idx := Index host ":" in
  let host := if decide (idx ≠ (-1)%Z) then slice_to host idx else host in
  let parts := Split host "." in
  if decide (2 ≤ length parts)%nat then
    let subdomain := nth 0 parts "" in
    if decide (subdomain = "www" ∨ subdomain = "api" ∨ subdomain = "localhost") then
      ("", Some (NewError StatusBadRequest "No valid tenant subdomain found"))
    else if decide (length parts = 2%nat ∧ nth 1 parts "" ≠ "localhost") then
      ("", Some (NewError StatusBadRequest "No valid tenant subdomain found"))
    else (subdomain, None)
  else ("", Some (NewError StatusBadRequest "No valid tenant subdomain found")).

Definition HeaderResolver (headerName : string) : TenantResolver := λ c,
  let tenant := Get c headerName in
  if decide (tenant = "") then
    ("", Some (NewError StatusBadRequest "Tenant header not found"))
  else (tenant, None).

Definition PathPrefixResolver : TenantResolver := λ c,
  let path := Path c in
  let parts := Split (TrimPrefix path "/") "/" in
  if decide ((0 < length parts)%nat ∧ nth 0 parts "" ≠ "") then
    (nth 0 parts "", None)
  else ("", Some (NewError StatusBadRequest "No tenant found in path")).

Definition QueryParamResolver (paramName : string) : TenantResolver := λ c,
  let tenant := Query c paramName in
  if decide (tenant = "") then
    ("", Some (NewError StatusBadRequest "Tenant query parameter not found"))
  else (tenant, None).

(** The loop of [ChainResolvers] over the resolvers still to try. *)
Fixpoint chainLoop (resolvers : list TenantResolver) (c : Ctx)
  : string * option gerror :=
  match resolvers with
  | [] => ("", Some (NewError StatusBadRequest "No tenant found using any resolver"))
  | resolver :: resolvers =>
      let '(tenant, err) := resolver c in
      match err with
      | None => if decide (tenant ≠ "") then (tenant, None)
                else chainLoop resolvers c
      | Some _ => chainLoop resolvers c
      end
  end.

Definition ChainResolvers (resolvers : list TenantResolver) : TenantResolver :=
  chainLoop resolvers.

Definition CustomResolver (fn : Ctx → string * option gerror) : TenantResolver := fn.

(** *** middleware.go *)

(** The interface [TenantStore], implemented over a state [S]. *)
Record TenantStore (S : Type) : Type := mkTenantStore {
  Store_GetTenantDB : Context → string → Run S (result conn);
  Store_GetMasterDB : Run S conn
}.
Arguments mkTenantStore {S} _ _.
Arguments Store_GetTenantDB {S} _ _ _.
Arguments Store_GetMasterDB {S} _.

(** [Config]; a nil func or interface value is [None].  Callbacks that
    receive [c] may write to it, so they return the context as well. *)
Record Config (S : Type) : Type := mkConfig {
  Resolver : option TenantResolver;
  Store : option (TenantStore S);
  ErrorHandler : option (Ctx → gerror → Ctx * option gerror);
  Skip : option (Ctx → bool);
  ContextKey : string;
  DBContextKey : string;
  OnTenantResolved : option (Ctx → string → Ctx * option gerror)
}.
Arguments mkConfig {S} _ _ _ _ _ _ _.
Arguments Resolver {S} _.
Arguments Store {S} _.
Arguments ErrorHandler {S} _.
Arguments Skip {S} _.
Arguments ContextKey {S} _.
Arguments DBContextKey {S} _.
Arguments OnTenantResolved {S} _.

(** How a handler ends: by [return c.Next()], by [return
    cfg.ErrorHandler(c, err)] (with what the error handler returned), or
    by calling through a nil value. *)
Inductive Outcome : Type :=
| Next
| Handled (err : gerror) (returned : option gerror)
| NilCall.

Definition Handler (S : Type) : Type := Ctx → Run S (Outcome * Ctx).

(** A function that returns or panics. *)
Inductive orPanic (A : Type) : Type :=
| Returns (a : A)
| Panics (message : string).
Arguments Returns {A} a.
Arguments Panics {A} message.

Section WithErrorText.

(** [err.Error()] for the errors of a tenant store; package fmt renders
    those, outside this repository. *)
Variable errorText : error → string.

Definition Error (err : gerror) : string :=
  match err with
  | FiberError _ message => message
  | StoreError e => errorText e
  | OtherError message => message
  end.

Definition defaultErrorHandler (c : Ctx) (err : gerror) : Ctx * option gerror :=
  JSON {[ "error" := "tenant_resolution_failed"; "message" := Error err ]}
       (Status StatusBadRequest c).

Definition ConfigDefault {S : Type} : Config S :=
  {| Resolver := Some SubdomainResolver;
     Store := None;
     ErrorHandler := Some defaultErrorHandler;
     Skip := None;
     ContextKey := "tenant";
     DBContextKey := "tenant_db";
     OnTenantResolved := None |}.

(** [return cfg.ErrorHandler(c, err)] *)
Definition fail {S : Type} (cfg : Config S) (c : Ctx) (err : gerror)
  : Run S (Outcome * Ctx) :=
  match ErrorHandler cfg with
  | None => ret (NilCall, c)
  | Some handler => let '(c, returned) := handler c err in ret (Handled err returned, c)
  end.

(** The closure [New] returns, over the config it captured. *)
Definition handle {S : Type} (cfg : Config S) : Handler S := λ c,
  if match Skip cfg with Some skip => skip c | None => false end then
    ret (Next, c)
  else
    match Resolver cfg with
    | None => ret (NilCall, c)
    | Some resolver =>
        let '(tenant, err) := resolver c in
        match err with
        | Some err => fail cfg c err
        | None =>
            let c := setLocal (ContextKey cfg) (LString tenant) c in
            match Store cfg with
            | None => ret (NilCall, c)
            | Some store =>
                let* r := Store_GetTenantDB store (UserContext c) tenant in
                match r with
                | Err err => fail cfg c (StoreError err)
                | Ok tenantDB =>
                    let c := setLocal (DBContextKey cfg) (LDB tenantDB) c in
                    match OnTenantResolved cfg with
                    | Some callback =>
                        let '(c, err) := callback c tenant in
                        match err with
                        | Some err => fail cfg c err
                        | None => ret (Next, c)
                        end
                    | None => ret (Next, c)
                    end
                end
            end
        end
    end.

(** The block of [New] that fills in the optional fields left unset. *)
Definition withDefaults {S : Type} (cfg : Config S) : Config S :=
  {| Resolver := match Resolver cfg with
                 | None => Resolver (@ConfigDefault S)
                 | Some r => Some r
                 end;
     Store := Store cfg;
     ErrorHandler := match ErrorHandler cfg with
                     | None => ErrorHandler (@ConfigDefault S)
                     | Some h => Some h
                     end;
     Skip := Skip cfg;
     ContextKey := if decide (ContextKey cfg = "")
                   then ContextKey (@ConfigDefault S) else ContextKey cfg;
     DBContextKey := if decide (DBContextKey cfg = "")
                     then DBContextKey (@ConfigDefault S) else DBContextKey cfg;
     OnTenantResolved := OnTenantResolved cfg |}.

Definition New {S : Type} (config : list (Config S)) : orPanic (Handler S) :=
  let cfg :=
    match config with
    | [] => ConfigDefault
    | cfg :: _ => withDefaults cfg
    end in
  match Store cfg with
  | None => Panics "TenantStore is required"
  | Some _ => Returns (handle cfg)
  end.

End WithErrorText.

Definition GetTenant (c : Ctx) (contextKey : list string) : string :=
  let key := match contextKey with
             | k0 :: _ => if decide (k0 ≠ "") then k0 else "tenant"
             | [] => "tenant"
             end in
  match Locals c !! key with
  | Some (LString tenant) => tenant
  | _ => ""
  end.

(** A nil [*gorm.DB] is [None]. *)
Definition GetTenantDB (c : Ctx) (contextKey : list string) : option conn :=
  let key := match contextKey with
             | k0 :: _ => if decide (k0 ≠ "") then k0 else "tenant_db"
             | [] => "tenant_db"
             end in
  match Locals c !! key with
  | Some (LDB db) => Some db
  | _ => None
  end.

Definition MustGetTenant (c : Ctx) (contextKey : list string) : orPanic string :=
  let tenant := GetTenant c contextKey in
  if decide (tenant = "") then Panics "tenant not found in context"
  else Returns tenant.

Definition MustGetTenantDB (c : Ctx) (contextKey : list string) : orPanic conn :=
  match GetTenantDB c contextKey with
  | None => Panics "tenant database not found in context"
  | Some db => Returns db
  end.

End Middleware.

(** The calls a client can make between two calls of interest, and the
    waking of a reset goroutine. *)
Inductive op : Type :=
| OpGet (ctx : Context) (tenantSchema : string)
| OpRemove (tenantSchema : string)
| OpClose
| OpList
| OpMaster
| OpWake (tenantSchema : string).

(** Every cached connection is a pointer already handed out, is not the
    master connection, and belongs to one tenant only. *)
Definition pointers_distinct (st : Machine) : Prop :=
  masterDB (store st) < next_conn (world st) ∧
  (∀ k db, tenantDBs (store st) !! k = Some db →
           db < next_conn (world st) ∧ db ≠ masterDB (store st)) ∧
  (∀ k1 k2 db, tenantDBs (store st) !! k1 = Some db →
               tenantDBs (store st) !! k2 = Some db → k1 = k2).

(** What one call can do between [st] and [st']: it keeps the master
    pointer and the config, never lowers the pointer counter, and does one
    of three things to the map: nothing, a deletion, or the insertion of
    the next fresh pointer under a key that was absent. *)
Definition map_step (st st' : Machine) : Prop :=
  masterDB (store st') = masterDB (store st) ∧
  config (store st') = config (store st) ∧
  (next_conn (world st) ≤ next_conn (world st'))%nat ∧
  (tenantDBs (store st') = tenantDBs (store st) ∨
   (∃ k, tenantDBs (store st') = delete k (tenantDBs (store st))) ∨
   (∃ k, tenantDBs (store st) !! k = None ∧
         tenantDBs (store st') = <[k := next_conn (world st)]> (tenantDBs (store st)) ∧
         next_conn (world st') = S (next_conn (world st)))).

(** Whether a call is [sqlDB.Close()]. *)
Definition is_close (e : event) : bool :=
  match e with EvClose _ => true | _ => false end.

(** ** Concrete drivers and stores *)

(** A driver on which every call succeeds. *)
Definition okOracle : Oracle := λ _ _, None.

(** A driver on which every [sqlDB.Close()] fails. *)
Definition closeFails : Oracle := λ _ e,
  match e with
  | EvClose _ => Some (DriverError "sql: close failed")
  | _ => None
  end.

(** A driver on which every [Exec] fails. *)
Definition execFails : Oracle := λ _ e,
  match e with
  | EvExec _ _ _ => Some (DriverError "permission denied for database")
  | _ => None
  end.

(** A driver on which every [db.DB()] fails. *)
Definition dbFails : Oracle := λ _ e,
  match e with
  | EvDB _ => Some (DriverError "invalid db")
  | _ => None
  end.

(** A driver on which every [PingContext] fails. *)
Definition pingFails : Oracle := λ _ e,
  match e with
  | EvPing _ _ => Some (DriverError "driver: bad connection")
  | _ => None
  end.

(** A driver whose first [gorm.Open] of [dsn] fails and later ones succeed. *)
Definition opened (dsn : string) (c : call) : bool :=
  match c.1 with
  | EvOpen d => String.eqb d dsn
  | _ => false
  end.

Definition openFailsOnce (dsn : string) : Oracle := λ history e,
  match e with
  | EvOpen d =>
      if String.eqb d dsn && negb (existsb (opened dsn) history)
      then Some (DriverError "dial tcp: connection refused")
      else None
  | _ => None
  end.

(** The store right after [New(DefaultConfig("dsn"))] on [okOracle];
    pointer 0 is nil, the master connection is 1. *)
Definition freshMachine : Machine :=
  {| store := {| masterDB := 1; tenantDBs := ∅;
                 config := DefaultConfig "dsn"; healthCheckDone := ∅ |};
     world := {| calls := [(EvOpen "dsn", None)]; next_conn := 2; sleeping := [] |} |}.

(** The same store after [GetTenantDB(0, "acme")]. *)
Definition acmeMachine : Machine :=
  {| store := {| masterDB := 1; tenantDBs := {["acme" := 2]};
                 config := DefaultConfig "dsn";
                 healthCheckDone := {["acme" := false]} |};
     world := {| calls := [(EvOpen "dsn", None);
                           (EvExec 0 1 "CREATE SCHEMA IF NOT EXISTS acme", None);
                           (EvOpen "dsn&search_path=acme,public", None)];
                 next_conn := 3; sleeping := [] |} |}.

(** [acmeMachine] after a [GetTenantDB(0, "beta")] whose open failed. *)
Definition betaFailed : Machine :=
  {| store := store acmeMachine;
     world := {| calls := [(EvOpen "dsn", None);
                           (EvExec 0 1 "CREATE SCHEMA IF NOT EXISTS acme", None);
                           (EvOpen "dsn&search_path=acme,public", None);
                           (EvExec 0 1 "CREATE SCHEMA IF NOT EXISTS beta", None);
                           (EvOpen "dsn&search_path=beta,public",
                              Some (DriverError "dial tcp: connection refused"))];
                 next_conn := 3; sleeping := [] |} |}.

(** What [SubdomainResolver] returns for a host it rejects. *)
Definition subdomainError : string * option Middleware.gerror :=
  ("", Some (Middleware.NewError Middleware.StatusBadRequest
               "No valid tenant subdomain found")).

(** What [PathPrefixResolver] and [ChainResolvers] return on failure. *)
Definition pathError : string * option Middleware.gerror :=
  ("", Some (Middleware.NewError Middleware.StatusBadRequest
               "No tenant found in path")).

Definition chainError : string * option Middleware.gerror :=
  ("", Some (Middleware.NewError Middleware.StatusBadRequest
               "No tenant found using any resolver")).

(** A request for host [host] and path [path], with no tenant header or
    query parameter and nothing stored yet. *)
Definition request (host path : string) : Middleware.Ctx :=
  Middleware.mkCtx host (λ _, "") path (λ _, "") 0 ∅ 200 None.

(** A driver on which every [AutoMigrate] fails. *)
Definition migrateFails : Oracle := λ _ e,
  match e with
  | EvAutoMigrate _ _ => Some (DriverError "migration failed")
  | _ => None
  end.

(** [freshMachine] with one model to migrate. *)
Definition modelMachine : Machine :=
  {| store := {| masterDB := 1; tenantDBs := ∅;
                 config := mkConfig "dsn" (GetTenantDSN (DefaultConfig "dsn")) true
                             ["Product"] (10 * second) (5 * minute) "logger.Silent";
                 healthCheckDone := ∅ |};
     world := {| calls := [(EvOpen "dsn", None)]; next_conn := 2; sleeping := [] |} |}.

(** [acmeMachine] after a hit on "acme" whose ping succeeded. *)
Definition acmePinged : Machine :=
  {| store := {| masterDB := 1; tenantDBs := {["acme" := 2]};
                 config := DefaultConfig "dsn";
                 healthCheckDone := {["acme" := true]} |};
     world := {| calls := [(EvOpen "dsn", None);
                           (EvExec 0 1 "CREATE SCHEMA IF NOT EXISTS acme", None);
                           (EvOpen "dsn&search_path=acme,public", None);
                           (EvDB 2, None); (EvPing 7 2, None)];
                 next_conn := 3; sleeping := [("acme", (5 * minute)%Z)] |} |}.

(** How the examples render a store error: only its outermost format. *)
Definition errorFormat (e : error) : string :=
  match e with
  | DriverError msg => msg
  | Errorf format _ => format
  end.

(** A busy stretch of traffic that never removes "acme". *)
Definition demoOps : list op :=
  [OpGet 3 "beta"; OpGet 4 "acme"; OpWake "acme"; OpRemove "beta"; OpList;
   OpClose; OpGet 5 "acme"; OpMaster].

Section Store.

(** How gorm and the database answer. *)
Variable oracle : Oracle.

(** The order in which [for k, v := range m] visits a Go map is not
    specified; any enumeration of the entries may occur. *)
Variable range : gmap string conn → list (string * conn).
Hypothesis range_perm : ∀ m, range m ≡ₚ map_to_list m.

(** One external call: ask the oracle, log the call and its outcome. *)
Definition extcall (e : event) : Run World (option error) :=
  λ w, let r := oracle (calls w) e in
       (r, mkWorld (calls w ++ [(e, r)])%list (next_conn w) (sleeping w)).

(** [gorm.Open]: a fresh [*gorm.DB] on success. *)
Definition gorm_Open (dsn : string) : Run World (result conn) :=
  let* r := extcall (EvOpen dsn) in
  match r with
  | Some err => ret (Err err)
  | None => λ w, (Ok (next_conn w),
                  mkWorld (calls w) (S (next_conn w)) (sleeping w))
  end.

(** [go func() { time.Sleep(interval); ... }()] *)
Definition go_reset (tenantSchema : string) (interval : Z) : Run World unit :=
  λ w, (tt, mkWorld (calls w) (next_conn w)
              (sleeping w ++ [(tenantSchema, interval)])%list).

(** ** New *)

Definition New (config : option Config) : Run World (result TenantStore) :=
  match config with
  | None => ret (Err (Errorf "config cannot be nil" []))
  | Some config =>
      let* r := gorm_Open (MasterDSN config) in
      match r with
      | Err err =>
          ret (Err (Errorf "failed to connect to master database: %w" [AErr err]))
      | Ok masterDB =>
          ret (Ok {| masterDB := masterDB;
                     tenantDBs := ∅;
                     config := config;
                     healthCheckDone := ∅ |})
      end
  end.

Definition GetMasterDB : Run Machine conn :=
  let* s := getStore in ret (masterDB s).

(** ** GetTenantDB *)

Definition ensureSchema (ctx : Context) (schemaName : string)
  : Run Machine (option error) :=
  let createSchemaSQL := "CREATE SCHEMA IF NOT EXISTS " ++ schemaName in
  let* s := getStore in
  let* r := inWorld (extcall (EvExec ctx (masterDB s) createSchemaSQL)) in
  match r with
  | Some err => ret (Some (Errorf "failed to create schema: %w" [AErr err]))
  | None => ret None
  end.

Definition healthCheckWithInterval (ctx : Context) (tenantSchema : string)
  (db : conn) : Run Machine unit :=
  let* s := getStore in
  if flag (healthCheckDone s) tenantSchema then ret tt
  else
    let* err := inWorld (extcall (EvDB db)) in
    match err with
    | Some _ => ret tt
    | None =>
        let* err := inWorld (extcall (EvPing ctx db)) in
        match err with
        | Some _ => ret tt
        | None =>
            do setHealthCheckDone tenantSchema true then
            inWorld (go_reset tenantSchema (HealthCheckInterval (config s)))
        end
    end.

(** The body of the goroutine once its sleep is over. *)
Definition resetHealthCheck (tenantSchema : string) : Run Machine unit :=
  setHealthCheckDone tenantSchema false.

(** The section of [GetTenantDB] under [s.mu.Lock()]. *)
Definition createLocked (ctx : Context) (tenantSchema : string)
  : Run Machine (result conn) :=
  let* s := getStore in
  match tenantDBs s !! tenantSchema with
  | Some db => ret (Ok db)
  | None =>
      let* err := ensureSchema ctx tenantSchema in
      match err with
      | Some err => ret (Err (Errorf "failed to ensure schema: %w" [AErr err]))
      | None =>
          let tenantDSN := GetTenantDSN (config s) tenantSchema in
          let* r := inWorld (gorm_Open tenantDSN) in
          match r with
          | Err err =>
              ret (Err (Errorf "failed to connect to tenant database: %w" [AErr err]))
          | Ok tenantDB =>
              let* err := (if AutoMigrate (config s)
                         && (0 <? length (Models (config s)))%nat
                      then inWorld (extcall (EvAutoMigrate tenantDB (Models (config s))))
                      else ret None) in
              match err with
              | Some err =>
                  ret (Err (Errorf "failed to auto-migrate models: %w" [AErr err]))
              | None =>
                  do setTenantDB tenantSchema tenantDB then
                  do setHealthCheckDone tenantSchema false then
                  ret (Ok tenantDB)
              end
          end
      end
  end.

Definition GetTenantDB (ctx : Context) (tenantSchema : string)
  : Run Machine (result conn) :=
  if decide (tenantSchema = "") then
    ret (Err (Errorf "tenant schema cannot be empty" []))
  else
    let* s := getStore in
    match tenantDBs s !! tenantSchema with
    | Some db =>
        do healthCheckWithInterval ctx tenantSchema db then
        ret (Ok db)
    | None => createLocked ctx tenantSchema
    end.

(** ** RemoveTenantDB *)

Definition RemoveTenantDB (tenantSchema : string) : Run Machine (option error) :=
  let* s := getStore in
  match tenantDBs s !! tenantSchema with
  | None => ret None
  | Some db =>
      let* err := inWorld (extcall (EvDB db)) in
      match err with
      | Some err =>
          ret (Some (Errorf "failed to get underlying DB: %w" [AErr err]))
      | None =>
          let* err := inWorld (extcall (EvClose db)) in
          match err with
          | Some err =>
              ret (Some (Errorf "failed to close connection: %w" [AErr err]))
          | None =>
              do deleteTenantDB tenantSchema then
              do deleteHealthCheckDone tenantSchema then
              ret None
          end
      end
  end.

(** ** Close *)

(** The loop [for schema, db := range s.tenantDBs], with [errs] the
    slice appended to. *)
Fixpoint closeTenants (entries : list (string * conn)) (errs : list error)
  : Run Machine (list error) :=
  match entries with
  | [] => ret errs
  | (schema, db) :: entries =>
      let* err := inWorld (extcall (EvDB db)) in
      match err with
      | Some err =>
          closeTenants entries
            (errs ++ [Errorf "failed to get DB for %s: %w" [AStr schema; AErr err]])%list
      | None =>
          let* err := inWorld (extcall (EvClose db)) in
          match err with
          | Some err =>
              closeTenants entries
                (errs ++ [Errorf "failed to close connection for %s: %w"
                            [AStr schema; AErr err]])%list
          | None => closeTenants entries errs
          end
      end
  end.

Definition closeMaster (errs : list error) : Run Machine (list error) :=
  let* s := getStore in
  let* err := inWorld (extcall (EvDB (masterDB s))) in
  match err with
  | Some err => ret (errs ++ [Errorf "failed to get master DB: %w" [AErr err]])%list
  | None =>
      let* err := inWorld (extcall (EvClose (masterDB s))) in
      match err with
      | Some err =>
          ret (errs ++ [Errorf "failed to close master connection: %w" [AErr err]])%list
      | None => ret errs
      end
  end.

Definition Close : Run Machine (option error) :=
  let* s := getStore in
  let* errs := closeTenants (range (tenantDBs s)) [] in
  let* errs := closeMaster errs in
  if (0 <? length errs)%nat then
    ret (Some (Errorf "errors closing connections: %v" [AErrs errs]))
  else ret None.

(** ** GetAllTenantSchemas *)

Definition GetAllTenantSchemas : Run Machine (list string) :=
  let* s := getStore in
  ret ((range (tenantDBs s)).*1).

(** ** Sequences of calls *)

(** A reset goroutine for [tenantSchema] wakes up (when one is asleep). *)
Definition wakeReset (tenantSchema : string) : Run Machine unit :=
  λ st,
    if decide (tenantSchema ∈ (sleeping (world st)).*1) then
      (do inWorld (λ w, (tt, mkWorld (calls w) (next_conn w)
                               (remove_sleeper tenantSchema (sleeping w)))) then
       resetHealthCheck tenantSchema) st
    else (tt, st).


Definition run_op (o : op) : Run Machine unit :=
  match o with
  | OpGet ctx k => do GetTenantDB ctx k then ret tt
  | OpRemove k => do RemoveTenantDB k then ret tt
  | OpClose => do Close then ret tt
  | OpList => do GetAllTenantSchemas then ret tt
  | OpMaster => do GetMasterDB then ret tt
  | OpWake k => wakeReset k
  end.

Fixpoint run_ops (ops : list op) : Run Machine unit :=
  match ops with
  | [] => ret tt
  | o :: ops => do run_op o then run_ops ops
  end.

(** [*tenantstore.TenantStore] as the middleware's [TenantStore]. *)
Definition asMiddlewareStore : Middleware.TenantStore Machine :=
  Middleware.mkTenantStore GetTenantDB GetMasterDB.

(** [K]'s record stays in the map after every call of the sequence. *)
Fixpoint stays_live (K : string) (ops : list op) (st : Machine) : Prop :=
  match ops with
  | [] => True
  | o :: ops =>
      let st' := (run_op o st).2 in
      is_Some (tenantDBs (store st') !! K) ∧ stays_live K ops st'
  end.

(** ** Properties *)

(** Unfold one layer of the monad and of the store's primitive steps. *)
Ltac unmonad :=
  unfold bind, ret, inWorld, getStore, modifyStore, setTenantDB,
    setHealthCheckDone, deleteTenantDB, deleteHealthCheckDone, extcall,
    go_reset in *; simpl in *.

(** A call that differs from every call of an explicit list is not in it. *)
Ltac no_such_call H :=
  repeat (apply elem_of_cons in H as [H|H]; [discriminate H|]);
  by apply elem_of_nil in H.

(** C10: [New(nil)] returns the error "config cannot be nil" and no store;
    the world is untouched, so no master connection was opened. *)
Theorem New_nil_config (w : World) :
  New None w = (Err (Errorf "config cannot be nil" []), w).
Proof. reflexivity. Qed.

(** The guard at the top of [GetTenantDB]. *)
Lemma GetTenantDB_guard ctx st :
  GetTenantDB ctx "" st = (Err (Errorf "tenant schema cannot be empty" []), st).
Proof. unfold GetTenantDB. rewrite decide_True by done. reflexivity. Qed.

(** C8: [GetTenantDB(ctx, "")] returns the error "tenant schema cannot be
    empty" and no connection; store and world are unchanged, so no record
    was inserted and no provisioning call was made. *)
Theorem GetTenantDB_empty_key (ctx : Context) (st : Machine) :
  GetTenantDB ctx "" st = (Err (Errorf "tenant schema cannot be empty" []), st).
Proof. apply GetTenantDB_guard. Qed.


(** *** The hit path *)

(** What the health check leaves alone, and the calls it may make. *)
Lemma healthCheckWithInterval_frame ctx K db st :
  ∃ st1 new,
    healthCheckWithInterval ctx K db st = (tt, st1) ∧
    tenantDBs (store st1) = tenantDBs (store st) ∧
    masterDB (store st1) = masterDB (store st) ∧
    config (store st1) = config (store st) ∧
    calls (world st1) = (calls (world st) ++ new)%list ∧
    Forall (λ c : call, is_construction c.1 = false) new.
Proof.
  unfold healthCheckWithInterval. unmonad.
  destruct (flag _ _).
  { exists st, []. rewrite app_nil_r. by repeat split. }
  destruct (oracle (calls (world st)) (EvDB db)) eqn:Hdb; simpl.
  { eexists _, [_]. simpl. repeat split; eauto. }
  destruct (oracle _ (EvPing ctx db)) eqn:Hping; simpl.
  { eexists _, [_; _]. simpl. rewrite <- app_assoc. repeat split; eauto. }
  eexists _, [_; _]. simpl. rewrite <- app_assoc. repeat split; eauto.
Qed.

Lemma GetTenantDB_hit ctx K db st :
  K ≠ "" →
  tenantDBs (store st) !! K = Some db →
  ∃ st1 new,
    GetTenantDB ctx K st = (Ok db, st1) ∧
    tenantDBs (store st1) = tenantDBs (store st) ∧
    calls (world st1) = (calls (world st) ++ new)%list ∧
    Forall (λ c : call, is_construction c.1 = false) new.
Proof.
  intros HK Hin. unfold GetTenantDB. rewrite decide_False by done.
  unfold bind at 1, getStore. rewrite Hin.
  destruct (healthCheckWithInterval_frame ctx K db st)
    as (st1 & new & Hrun & Hdbs & _ & _ & Hcalls & Hnew).
  exists st1, new. unfold bind. rewrite Hrun. by repeat split.
Qed.

(** *** The miss path *)

(** [createLocked] either fails and leaves the store as it was, or
    returns the connection now recorded for the key. *)
Lemma createLocked_store ctx k st r st1 :
  createLocked ctx k st = (r, st1) →
  match r with
  | Ok db =>
      tenantDBs (store st1) = <[k := db]> (tenantDBs (store st)) ∧
      masterDB (store st1) = masterDB (store st) ∧
      config (store st1) = config (store st)
  | Err _ => store st1 = store st
  end.
Proof.
  unfold createLocked, ensureSchema, gorm_Open. unmonad.
  destruct (tenantDBs (store st) !! k) eqn:Hk.
  { intros [= <- <-]. by rewrite insert_id. }
  destruct (oracle _ (EvExec _ _ _)); simpl.
  { by intros [= <- <-]. }
  destruct (oracle _ (EvOpen _)); simpl.
  { by intros [= <- <-]. }
  destruct (AutoMigrate _ && _); simpl.
  - destruct (oracle _ (EvAutoMigrate _ _)); simpl; by intros [= <- <-].
  - by intros [= <- <-].
Qed.

Lemma GetTenantDB_store ctx k st r st1 :
  GetTenantDB ctx k st = (r, st1) →
  match r with
  | Ok db => tenantDBs (store st1) = <[k := db]> (tenantDBs (store st))
  | Err _ => store st1 = store st
  end.
Proof.
  destruct (decide (k = "")) as [->|Hk].
  { rewrite GetTenantDB_guard. by intros [= <- <-]. }
  destruct (tenantDBs (store st) !! k) as [db|] eqn:Hin.
  - destruct (GetTenantDB_hit ctx k db st Hk Hin) as (st' & new & -> & Hdbs & _).
    intros [= <- <-]. by rewrite Hdbs, insert_id.
  - unfold GetTenantDB. rewrite decide_False by done.
    unfold bind at 1, getStore. rewrite Hin. intros Hrun.
    apply createLocked_store in Hrun. by destruct r as [db|e]; [destruct Hrun|].
Qed.

(** A successful [GetTenantDB] returns the connection on record. *)
Lemma GetTenantDB_Ok_recorded ctx k st db st1 :
  GetTenantDB ctx k st = (Ok db, st1) →
  tenantDBs (store st1) !! k = Some db.
Proof.
  intros Hrun. apply GetTenantDB_store in Hrun. rewrite Hrun.
  apply lookup_insert_eq.
Qed.

(** *** What the other methods do to the map *)

Lemma RemoveTenantDB_store k st r st1 :
  RemoveTenantDB k st = (r, st1) →
  match r with
  | None => tenantDBs (store st1) = delete k (tenantDBs (store st))
  | Some _ => store st1 = store st
  end.
Proof.
  unfold RemoveTenantDB. unmonad.
  destruct (tenantDBs (store st) !! k) eqn:Hk.
  - destruct (oracle _ (EvDB _)); simpl; [by intros [= <- <-]|].
    destruct (oracle _ (EvClose _)); simpl; by intros [= <- <-].
  - intros [= <- <-]. by rewrite delete_id.
Qed.

Lemma closeTenants_store entries errs st :
  store (closeTenants entries errs st).2 = store st.
Proof.
  revert errs st. induction entries as [|[schema db] entries IH]; intros errs st.
  { reflexivity. }
  simpl. unmonad.
  destruct (oracle _ (EvDB db)); simpl; [by rewrite IH|].
  destruct (oracle _ (EvClose db)); simpl; by rewrite IH.
Qed.

Lemma closeMaster_store errs st :
  store (closeMaster errs st).2 = store st.
Proof.
  unfold closeMaster. unmonad.
  destruct (oracle _ (EvDB _)); simpl; [done|].
  by destruct (oracle _ (EvClose _)).
Qed.

Lemma Close_store st : store (Close st).2 = store st.
Proof.
  unfold Close. unfold bind, getStore.
  destruct (closeTenants _ _ st) as [errs st1] eqn:H1.
  destruct (closeMaster errs st1) as [errs' st2] eqn:H2.
  assert (store st2 = store st) as <-.
  { rewrite <- (closeTenants_store (range (tenantDBs (store st))) [] st).
    rewrite H1. simpl. rewrite <- (closeMaster_store errs st1). by rewrite H2. }
  by destruct (0 <? length errs')%nat.
Qed.

Lemma wakeReset_tenantDBs k st :
  tenantDBs (store (wakeReset k st).2) = tenantDBs (store st).
Proof.
  unfold wakeReset, resetHealthCheck. by case_decide.
Qed.

(** A record that is still present after a call is the same record. *)
Lemma run_op_keeps_instance K db o st :
  tenantDBs (store st) !! K = Some db →
  is_Some (tenantDBs (store (run_op o st).2) !! K) →
  tenantDBs (store (run_op o st).2) !! K = Some db.
Proof.
  intros Hin Hlive. destruct o as [ctx k|k| | | |k]; simpl in *; unfold bind in *.
  - destruct (GetTenantDB ctx k st) as [r st1] eqn:Hrun. simpl in *.
    destruct (decide (k = K)) as [->|Hne].
    + destruct (decide (K = "")) as [->|HK].
      * rewrite GetTenantDB_guard in Hrun. by injection Hrun as <- <-.
      * destruct (GetTenantDB_hit ctx K db st HK Hin) as (st' & new & Hrun' & Hdbs & _).
        rewrite Hrun' in Hrun. injection Hrun as <- <-. by rewrite Hdbs.
    + apply GetTenantDB_store in Hrun. destruct r as [db'|e].
      * by rewrite Hrun, lookup_insert_ne.
      * by rewrite Hrun.
  - destruct (RemoveTenantDB k st) as [r st1] eqn:Hrun. simpl in *.
    apply RemoveTenantDB_store in Hrun. destruct r as [e|].
    + by rewrite Hrun.
    + rewrite Hrun in *. destruct (decide (k = K)) as [->|Hne].
      * rewrite lookup_delete_eq in Hlive. by destruct Hlive.
      * by rewrite lookup_delete_ne.
  - pose proof (Close_store st) as Hst.
    destruct (Close st) as [r st1]. simpl in *. by rewrite Hst.
  - done.
  - done.
  - by rewrite wakeReset_tenantDBs.
Qed.

Lemma run_ops_keeps_instance K db ops st :
  tenantDBs (store st) !! K = Some db →
  stays_live K ops st →
  tenantDBs (store (run_ops ops st).2) !! K = Some db.
Proof.
  revert st. induction ops as [|o ops IH]; intros st Hin Hlive.
  { done. }
  destruct Hlive as [Hnow Hlater]. simpl. unfold bind.
  pose proof (run_op_keeps_instance K db o st Hin Hnow) as Hin'.
  destruct (run_op o st) as [[] st1]. simpl in *. by apply IH.
Qed.

(** C1: once [GetTenantDB] has returned a connection for [K], then after
    any sequence of calls during which [K]'s record stays in the map,
    [GetTenantDB(K)] returns that same connection, leaves the map as it
    is, and makes no provisioning, open or migration call. *)
Theorem GetTenantDB_cached_same_instance
    (ctx ctx' : Context) (K : string) (db : conn) (st st1 : Machine)
    (ops : list op) :
  GetTenantDB ctx K st = (Ok db, st1) →
  stays_live K ops st1 →
  let st2 := (run_ops ops st1).2 in
  ∃ st3 new,
    GetTenantDB ctx' K st2 = (Ok db, st3) ∧
    tenantDBs (store st3) = tenantDBs (store st2) ∧
    calls (world st3) = (calls (world st2) ++ new)%list ∧
    Forall (λ c : call, is_construction c.1 = false) new.
Proof.
  intros Hfirst Hlive st2.
  assert (HK : K ≠ "").
  { intros ->. by rewrite GetTenantDB_guard in Hfirst. }
  apply GetTenantDB_Ok_recorded in Hfirst.
  apply (GetTenantDB_hit ctx' K db st2 HK).
  by apply run_ops_keeps_instance.
Qed.

(** *** Failed construction *)

(** The four ways the locked section can end when the key is absent. *)
Lemma createLocked_miss ctx K st :
  tenantDBs (store st) !! K = None →
  let exec := EvExec ctx (masterDB (store st)) ("CREATE SCHEMA IF NOT EXISTS " ++ K) in
  let open := EvOpen (GetTenantDSN (config (store st)) K) in
  ∃ r st1 new,
    createLocked ctx K st = (r, st1) ∧
    calls (world st1) = (calls (world st) ++ new)%list ∧
    ((∃ c, new = [(exec, Some c)] ∧ store st1 = store st ∧
           r = Err (Errorf "failed to ensure schema: %w"
                      [AErr (Errorf "failed to create schema: %w" [AErr c])])) ∨
     (∃ c, new = [(exec, None); (open, Some c)] ∧ store st1 = store st ∧
           r = Err (Errorf "failed to connect to tenant database: %w" [AErr c])) ∨
     (∃ c db, new = [(exec, None); (open, None);
                     (EvAutoMigrate db (Models (config (store st))), Some c)] ∧
              store st1 = store st ∧
              r = Err (Errorf "failed to auto-migrate models: %w" [AErr c])) ∨
     (∃ db tail, new = (exec, None) :: (open, None) :: tail ∧
                 tenantDBs (store st1) = <[K := db]> (tenantDBs (store st)) ∧
                 r = Ok db)).
Proof.
  intros Habs exec open. unfold createLocked, ensureSchema, gorm_Open. unmonad.
  rewrite Habs.
  destruct (oracle _ (EvExec _ _ _)) as [c|] eqn:Hexec; simpl.
  { eexists _, _, _. split; [done|]. split; [done|]. left. by exists c. }
  destruct (oracle _ (EvOpen _)) as [c|] eqn:Hopen; simpl.
  { eexists _, _, [_; _]. split; [done|]. simpl. rewrite <- app_assoc.
    split; [done|]. right; left. by exists c. }
  destruct (AutoMigrate _ && _); simpl.
  - destruct (oracle _ (EvAutoMigrate _ _)) as [c|] eqn:Hmig; simpl.
    + eexists _, _, [_; _; _]. split; [done|]. simpl. rewrite <- !app_assoc.
      split; [done|]. right; right; left. by eexists c, _.
    + eexists _, _, [_; _; _]. split; [done|]. simpl. rewrite <- !app_assoc.
      split; [done|]. right; right; right. by eexists _, _.
  - eexists _, _, [_; _]. split; [done|]. simpl. rewrite <- !app_assoc.
    split; [done|]. right; right; right. by eexists _, _.
Qed.

Lemma GetTenantDB_miss_is_createLocked ctx K st :
  K ≠ "" → tenantDBs (store st) !! K = None →
  GetTenantDB ctx K st = createLocked ctx K st.
Proof.
  intros HK Habs. unfold GetTenantDB. rewrite decide_False by done.
  unfold bind, getStore. by rewrite Habs.
Qed.

(** Where an error of [GetTenantDB] comes from, and what is left after
    it: the error is that of the step whose call failed last, the store
    is as before, and the next call starts over. *)
Lemma GetTenantDB_error_origin
    (ctx ctx' : Context) (K : string) (st st1 : Machine) (e : error) :
  K ≠ "" →
  GetTenantDB ctx K st = (Err e, st1) →
  (∃ before ev cause,
      calls (world st1) = (before ++ [(ev, Some cause)])%list ∧
      ((∃ sql, ev = EvExec ctx (masterDB (store st)) sql ∧
               e = Errorf "failed to ensure schema: %w"
                     [AErr (Errorf "failed to create schema: %w" [AErr cause])]) ∨
       (∃ dsn, ev = EvOpen dsn ∧
               e = Errorf "failed to connect to tenant database: %w" [AErr cause]) ∨
       (∃ db models, ev = EvAutoMigrate db models ∧
               e = Errorf "failed to auto-migrate models: %w" [AErr cause]))) ∧
  store st1 = store st ∧
  tenantDBs (store st1) !! K = None ∧
  ∃ r st2 o rest,
    GetTenantDB ctx' K st1 = (r, st2) ∧
    calls (world st2) =
      (calls (world st1)
         ++ (EvExec ctx' (masterDB (store st1)) ("CREATE SCHEMA IF NOT EXISTS " ++ K), o)
            :: rest)%list ∧
    (o = None →
     ∃ o' rest', rest = (EvOpen (GetTenantDSN (config (store st1)) K), o') :: rest') ∧
    match r with
    | Ok db => tenantDBs (store st2) !! K = Some db
    | Err _ => tenantDBs (store st2) !! K = None
    end.
Proof.
  intros HK Hfail.
  assert (Habs : tenantDBs (store st) !! K = None).
  { destruct (tenantDBs (store st) !! K) as [db|] eqn:Hin; [|done].
    destruct (GetTenantDB_hit ctx K db st HK Hin) as (? & ? & Hhit & _).
    by rewrite Hhit in Hfail. }
  rewrite GetTenantDB_miss_is_createLocked in Hfail by done.
  destruct (createLocked_miss ctx K st Habs) as (r & st' & new & Hrun & Hcalls & Hcases).
  rewrite Hrun in Hfail. injection Hfail as -> ->.
  assert (Hstore : store st1 = store st).
  { destruct Hcases as [(c & _ & ? & _)|[(c & _ & ? & _)|[(c & db & _ & ? & _)|(db & tl & _ & _ & ?)]]];
      done. }
  assert (Habs1 : tenantDBs (store st1) !! K = None) by by rewrite Hstore.
  split; [|split; [done|split; [done|]]].
  - rewrite Hcalls.
    destruct Hcases as [(c & -> & _ & [= ->])|[(c & -> & _ & [= ->])
                       |[(c & db & -> & _ & [= ->])|(db & tl & _ & _ & ?)]]]; [| | |done].
    + exists (calls (world st)), (EvExec ctx (masterDB (store st))
                ("CREATE SCHEMA IF NOT EXISTS " ++ K)), c.
      split; [done|]. left. by eexists.
    + eexists (calls (world st) ++ [_])%list, _, c.
      split; [by rewrite <- app_assoc|]. right; left. by eexists.
    + eexists (calls (world st) ++ [_; _])%list, _, c.
      split; [by rewrite <- app_assoc|]. right; right. by eexists _, _.
  - rewrite GetTenantDB_miss_is_createLocked by done.
    destruct (createLocked_miss ctx' K st1 Habs1) as (r & st2 & new' & Hrun' & Hcalls' & Hcases').
    destruct Hcases' as [(c & -> & Hs & ->)|[(c & -> & Hs & ->)
                        |[(c & db & -> & Hs & ->)|(db & tl & -> & Hs & ->)]]];
      eexists _, st2, _, _; (split; [exact Hrun'|]); (split; [exact Hcalls'|]).
    + split; [done|]. by rewrite Hs.
    + split; [by eexists _, _|]. by rewrite Hs.
    + split; [by eexists _, _|]. by rewrite Hs.
    + split; [by eexists _, _|]. rewrite Hs. apply lookup_insert_eq.
Qed.

(** C3: for a non-empty [K] with no record, a failure of the provisioning
    call, of [gorm.Open] or of [AutoMigrate] makes [GetTenantDB] return
    that step's error, wrapped, with the store exactly as before: no record
    for [K] is inserted.  After any such error the next [GetTenantDB(K)]
    starts over: it provisions again, opens again once provisioning
    succeeds, and ends with either a complete record or none. *)
Theorem GetTenantDB_failure_leaves_no_record
    (ctx ctx' : Context) (K : string) (st : Machine) (c : error) :
  K ≠ "" →
  tenantDBs (store st) !! K = None →
  let w := world st in
  let exec := EvExec ctx (masterDB (store st)) ("CREATE SCHEMA IF NOT EXISTS " ++ K) in
  let open := EvOpen (GetTenantDSN (config (store st)) K) in
  let migrate := EvAutoMigrate (next_conn w) (Models (config (store st))) in
  (oracle (calls w) exec = Some c →
   GetTenantDB ctx K st
   = (Err (Errorf "failed to ensure schema: %w"
             [AErr (Errorf "failed to create schema: %w" [AErr c])]),
      mkMachine (store st)
        (mkWorld (calls w ++ [(exec, Some c)])%list (next_conn w) (sleeping w)))) ∧
  (oracle (calls w) exec = None →
   oracle (calls w ++ [(exec, None)])%list open = Some c →
   GetTenantDB ctx K st
   = (Err (Errorf "failed to connect to tenant database: %w" [AErr c]),
      mkMachine (store st)
        (mkWorld (calls w ++ [(exec, None); (open, Some c)])%list
           (next_conn w) (sleeping w)))) ∧
  (oracle (calls w) exec = None →
   oracle (calls w ++ [(exec, None)])%list open = None →
   AutoMigrate (config (store st)) && (0 <? length (Models (config (store st))))%nat
   = true →
   oracle (calls w ++ [(exec, None); (open, None)])%list migrate = Some c →
   GetTenantDB ctx K st
   = (Err (Errorf "failed to auto-migrate models: %w" [AErr c]),
      mkMachine (store st)
        (mkWorld (calls w ++ [(exec, None); (open, None); (migrate, Some c)])%list
           (S (next_conn w)) (sleeping w)))) ∧
  (∀ e st1,
     GetTenantDB ctx K st = (Err e, st1) →
     store st1 = store st ∧
     tenantDBs (store st1) !! K = None ∧
     ∃ r st2 o rest,
       GetTenantDB ctx' K st1 = (r, st2) ∧
       calls (world st2) =
         (calls (world st1)
            ++ (EvExec ctx' (masterDB (store st1)) ("CREATE SCHEMA IF NOT EXISTS " ++ K), o)
               :: rest)%list ∧
       (o = None →
        ∃ o' rest', rest = (EvOpen (GetTenantDSN (config (store st1)) K), o') :: rest') ∧
       match r with
       | Ok db => tenantDBs (store st2) !! K = Some db
       | Err _ => tenantDBs (store st2) !! K = None
       end).
Proof.
  intros HK Habs w exec open migrate. subst w exec open migrate.
  rewrite GetTenantDB_miss_is_createLocked by done.
  split; [|split; [|split]].
  - intros Hexec. unfold createLocked, ensureSchema. unmonad. rewrite Habs.
    by rewrite Hexec.
  - intros Hexec Hopen. unfold createLocked, ensureSchema, gorm_Open. unmonad.
    rewrite Habs, Hexec. simpl. rewrite Hopen. simpl. by rewrite <- app_assoc.
  - intros Hexec Hopen Hgate Hmig.
    unfold createLocked, ensureSchema, gorm_Open. unmonad.
    rewrite Habs, Hexec. simpl. rewrite Hopen. simpl. rewrite Hgate. simpl.
    rewrite <- !app_assoc. simpl. unfold call in *. rewrite Hmig. by simpl.
  - intros e st1 Hfail.
    rewrite <- GetTenantDB_miss_is_createLocked in Hfail by done.
    by destruct (GetTenantDB_error_origin ctx ctx' K st st1 e HK Hfail)
      as (_ & ? & ? & ?).
Qed.

(** *** RemoveTenantDB on a cached key *)

(** C5 (as the code has it): for a cached [K], [RemoveTenantDB] calls
    [DB()] on its connection and, when that succeeds, [Close()].  When both
    succeed it returns nil and deletes [K] from both maps.  When either
    fails it returns that failure wrapped, and the store is unchanged: the
    record stays in the map. *)
Theorem RemoveTenantDB_present (K : string) (db : conn) (st : Machine) :
  tenantDBs (store st) !! K = Some db →
  ∃ r st1 o rest,
    RemoveTenantDB K st = (r, st1) ∧
    calls (world st1) = (calls (world st) ++ (EvDB db, o) :: rest)%list ∧
    (o = None → ∃ o', rest = [(EvClose db, o')]) ∧
    match r with
    | None =>
        o = None ∧ rest = [(EvClose db, None)] ∧
        tenantDBs (store st1) = delete K (tenantDBs (store st)) ∧
        healthCheckDone (store st1) = delete K (healthCheckDone (store st))
    | Some e =>
        store st1 = store st ∧
        tenantDBs (store st1) !! K = Some db ∧
        ((∃ c, o = Some c ∧ rest = [] ∧
               e = Errorf "failed to get underlying DB: %w" [AErr c]) ∨
         (∃ c, o = None ∧ rest = [(EvClose db, Some c)] ∧
               e = Errorf "failed to close connection: %w" [AErr c]))
    end.
Proof.
  intros Hin. unfold RemoveTenantDB. unmonad. rewrite Hin.
  destruct (oracle _ (EvDB db)) as [c|] eqn:Hdb; simpl.
  { eexists _, _, _, _. split; [done|]. simpl. split; [done|].
    split; [done|]. split; [done|]. split; [done|]. left. by exists c. }
  destruct (oracle _ (EvClose db)) as [c|] eqn:Hclose; simpl.
  - eexists _, _, _, _. split; [done|]. simpl. rewrite <- app_assoc.
    split; [done|]. split; [by eexists|]. split; [done|]. split; [done|].
    right. by exists c.
  - eexists _, _, _, _. split; [done|]. simpl. rewrite <- app_assoc.
    split; [done|]. split; [by eexists|]. done.
Qed.

(** Once a removal has returned nil, removing again is a no-op returning nil. *)
Lemma RemoveTenantDB_again K st st1 :
  RemoveTenantDB K st = (None, st1) →
  RemoveTenantDB K st1 = (None, st1).
Proof.
  intros Hrun. apply RemoveTenantDB_store in Hrun.
  unfold RemoveTenantDB. unmonad. by rewrite Hrun, lookup_delete_eq.
Qed.

(** *** Close *)

Lemma close_attempted_cons db c cs :
  close_attempted db cs → close_attempted db (c :: cs).
Proof.
  intros (o & Hdb & Hclose). exists o. split; [by right|].
  intros Ho. destruct (Hclose Ho) as [o' Ho']. exists o'. by right.
Qed.

(** The loop visits every entry whatever fails on the way, and appends
    one error per failed call. *)
Lemma closeTenants_spec entries errs st :
  ∃ errs' st1 new,
    closeTenants entries errs st = ((errs ++ errs')%list, st1) ∧
    store st1 = store st ∧
    calls (world st1) = (calls (world st) ++ new)%list ∧
    (∀ k db, (k, db) ∈ entries → close_attempted db new) ∧
    Forall2 (λ e c, cause e = Some c) errs' (failures new).
Proof.
  revert errs st. induction entries as [|[schema db] entries IH]; intros errs st.
  { exists [], st, []. rewrite !app_nil_r. repeat split; [|constructor].
    intros k db Hin. by apply elem_of_nil in Hin. }
  simpl. unmonad.
  destruct (oracle _ (EvDB db)) as [c|] eqn:Hdb; simpl.
  - match goal with |- context [closeTenants entries ?e ?s] =>
      destruct (IH e s) as (errs' & st1 & new & Hrun & Hst & Hcalls & Hatt & Hrep) end.
    simpl in *. eexists (_ :: errs'), st1, ((EvDB db, Some c) :: new).
    rewrite Hrun, Hcalls, <- !app_assoc. simpl.
    repeat split; [done| |by constructor].
    intros k db' [[= -> ->]|Hin]%elem_of_cons.
    + exists (Some c). split; [by left|done].
    + apply close_attempted_cons. by eapply Hatt.
  - destruct (oracle _ (EvClose db)) as [c|] eqn:Hclose; simpl.
    + match goal with |- context [closeTenants entries ?e ?s] =>
        destruct (IH e s) as (errs' & st1 & new & Hrun & Hst & Hcalls & Hatt & Hrep) end.
      simpl in *. eexists (_ :: errs'), st1, ((EvDB db, None) :: (EvClose db, Some c) :: new).
      rewrite Hrun, Hcalls, <- !app_assoc. simpl.
      repeat split; [done| |by constructor].
      intros k db' [[= -> ->]|Hin]%elem_of_cons.
      * exists None. split; [by left|]. intros _. exists (Some c). right; by left.
      * do 2 apply close_attempted_cons. by eapply Hatt.
    + match goal with |- context [closeTenants entries ?e ?s] =>
        destruct (IH e s) as (errs' & st1 & new & Hrun & Hst & Hcalls & Hatt & Hrep) end.
      simpl in *. eexists errs', st1, ((EvDB db, None) :: (EvClose db, None) :: new).
      rewrite Hrun, Hcalls, <- !app_assoc. simpl.
      repeat split; [done| |done].
      intros k db' [[= -> ->]|Hin]%elem_of_cons.
      * exists None. split; [by left|]. intros _. exists None. right; by left.
      * do 2 apply close_attempted_cons. by eapply Hatt.
Qed.

Lemma closeMaster_spec errs st :
  let m := masterDB (store st) in
  ∃ errs' st1 new,
    closeMaster errs st = ((errs ++ errs')%list, st1) ∧
    store st1 = store st ∧
    calls (world st1) = (calls (world st) ++ new)%list ∧
    close_attempted m new ∧
    Forall (λ c : call, c.1 = EvDB m ∨ c.1 = EvClose m) new ∧
    Forall2 (λ e c, cause e = Some c) errs' (failures new).
Proof.
  intros m. unfold closeMaster. unmonad. fold m.
  destruct (oracle _ (EvDB m)) as [c|] eqn:Hdb; simpl.
  { eexists [_], _, [_]. repeat split; [|by repeat constructor..].
    exists (Some c). split; [by left|done]. }
  destruct (oracle _ (EvClose m)) as [c|] eqn:Hclose; simpl.
  - eexists [_], _, [_; _]. rewrite <- app_assoc. simpl.
    repeat split; [|by repeat constructor..].
    exists None. split; [by left|]. intros _. eexists. right; by left.
  - eexists [], _, [_; _]. rewrite <- !app_assoc, app_nil_r. simpl.
    repeat split; [|by repeat constructor..].
    exists None. split; [by left|]. intros _. eexists. right; by left.
Qed.

(** [Close] as the tenant loop followed by the master connection. *)
Lemma Close_spec st :
  ∃ r st1 tnew mnew errs,
    Close st = (r, st1) ∧
    store st1 = store st ∧
    calls (world st1) = (calls (world st) ++ tnew ++ mnew)%list ∧
    (∀ k db, (k, db) ∈ range (tenantDBs (store st)) → close_attempted db tnew) ∧
    close_attempted (masterDB (store st)) mnew ∧
    Forall (λ c : call, c.1 = EvDB (masterDB (store st))
                        ∨ c.1 = EvClose (masterDB (store st))) mnew ∧
    Forall2 (λ e c, cause e = Some c) errs (failures (tnew ++ mnew)) ∧
    r = match errs with
        | [] => None
        | _ :: _ => Some (Errorf "errors closing connections: %v" [AErrs errs])
        end.
Proof.
  unfold Close. unfold bind at 1 2, getStore.
  destruct (closeTenants_spec (range (tenantDBs (store st))) [] st)
    as (errs1 & st1 & tnew & Hrun1 & Hst1 & Hcalls1 & Hatt1 & Hrep1).
  rewrite Hrun1. simpl. unfold bind at 1.
  destruct (closeMaster_spec errs1 st1)
    as (errs2 & st2 & mnew & Hrun2 & Hst2 & Hcalls2 & Hatt2 & Hev2 & Hrep2).
  rewrite Hrun2. rewrite Hst1 in *.
  exists (match (errs1 ++ errs2)%list with
          | [] => None
          | _ :: _ => Some (Errorf "errors closing connections: %v"
                              [AErrs (errs1 ++ errs2)%list])
          end), st2, tnew, mnew, (errs1 ++ errs2)%list.
  split; [by destruct (errs1 ++ errs2)%list|].
  split; [by rewrite Hst2|].
  split; [by rewrite Hcalls2, Hcalls1, app_assoc|].
  repeat split; try done.
  unfold failures. rewrite omap_app. by apply Forall2_app.
Qed.

(** C6: [Close] attempts to close every cached tenant connection, then
    the master connection, whatever fails on the way; the error it
    returns lists one wrapped error for every call that failed, in call
    order, and it returns nil exactly when no call failed. *)
Theorem Close_attempts_and_reports_all (st : Machine) :
  ∃ r st1 tnew mnew errs,
    Close st = (r, st1) ∧
    calls (world st1) = (calls (world st) ++ tnew ++ mnew)%list ∧
    (∀ k db, tenantDBs (store st) !! k = Some db → close_attempted db tnew) ∧
    close_attempted (masterDB (store st)) mnew ∧
    Forall (λ c : call, c.1 = EvDB (masterDB (store st))
                        ∨ c.1 = EvClose (masterDB (store st))) mnew ∧
    Forall2 (λ e c, cause e = Some c) errs (failures (tnew ++ mnew)) ∧
    r = match errs with
        | [] => None
        | _ :: _ => Some (Errorf "errors closing connections: %v" [AErrs errs])
        end.
Proof.
  destruct (Close_spec st)
    as (r & st1 & tnew & mnew & errs & Hrun & _ & Hcalls & Hatt & Hm & Hev & Hrep & Hr).
  exists r, st1, tnew, mnew, errs. repeat split; try done.
  intros k db Hin. apply (Hatt k).
  rewrite range_perm. by apply elem_of_map_to_list.
Qed.

(** C4 (as the code has it): after [Close], whatever failed, a close was
    attempted on every connection that was cached, and the store is as it
    was: [GetAllTenantSchemas] lists exactly the keys cached before. *)
Theorem Close_keeps_records (st : Machine) :
  ∃ r st1 new,
    Close st = (r, st1) ∧
    calls (world st1) = (calls (world st) ++ new)%list ∧
    (∀ k db, tenantDBs (store st) !! k = Some db → close_attempted db new) ∧
    store st1 = store st ∧
    ∀ k, k ∈ (GetAllTenantSchemas st1).1 ↔ is_Some (tenantDBs (store st) !! k).
Proof.
  destruct (Close_spec st)
    as (r & st1 & tnew & mnew & errs & Hrun & Hst & Hcalls & Hatt & _).
  exists r, st1, (tnew ++ mnew)%list. repeat split; try done.
  - intros k db Hin.
    destruct (Hatt k db) as (o & Hdb & Hclose).
    { rewrite range_perm. by apply elem_of_map_to_list. }
    exists o. split; [set_solver|].
    intros Ho. destruct (Hclose Ho) as [o' Ho']. exists o'. set_solver.
  - unfold GetAllTenantSchemas. unmonad. rewrite Hst.
    intros ((k' & db) & -> & Hin)%list_elem_of_fmap.
    rewrite range_perm in Hin. apply elem_of_map_to_list in Hin. by eexists.
  - unfold GetAllTenantSchemas. unmonad. rewrite Hst.
    intros [db Hin]. apply list_elem_of_fmap. exists (k, db). split; [done|].
    rewrite range_perm. by apply elem_of_map_to_list.
Qed.

(** *** The health check on a hit *)

(** The four ways a hit can go: flag already set, [DB()] fails, the ping
    fails, the ping succeeds.  All calls are made by the caller, before
    [GetTenantDB] returns. *)
Lemma GetTenantDB_hit_cases ctx K db st :
  K ≠ "" →
  tenantDBs (store st) !! K = Some db →
  ∃ st1 new,
    GetTenantDB ctx K st = (Ok db, st1) ∧
    tenantDBs (store st1) = tenantDBs (store st) ∧
    calls (world st1) = (calls (world st) ++ new)%list ∧
    ((flag (healthCheckDone (store st)) K = true ∧ new = [] ∧ st1 = st) ∨
     (flag (healthCheckDone (store st)) K = false ∧
      (∃ c, new = [(EvDB db, Some c)] ∨ new = [(EvDB db, None); (EvPing ctx db, Some c)]) ∧
      store st1 = store st ∧ sleeping (world st1) = sleeping (world st)) ∨
     (flag (healthCheckDone (store st)) K = false ∧
      new = [(EvDB db, None); (EvPing ctx db, None)] ∧
      healthCheckDone (store st1) = <[K := true]> (healthCheckDone (store st)) ∧
      sleeping (world st1)
      = (sleeping (world st) ++ [(K, HealthCheckInterval (config (store st)))])%list)).
Proof.
  intros HK Hin. unfold GetTenantDB. rewrite decide_False by done.
  unfold bind at 1, getStore. rewrite Hin.
  unfold healthCheckWithInterval. unmonad.
  destruct (flag _ _) eqn:Hflag.
  { exists st, []. rewrite app_nil_r. repeat split; try done. by left. }
  destruct (oracle _ (EvDB db)) as [c|] eqn:Hdb; simpl.
  { eexists _, [_]. repeat split; try done. right; left.
    repeat split; try done. exists c. by left. }
  destruct (oracle _ (EvPing ctx db)) as [c|] eqn:Hping; simpl.
  { eexists _, [_; _]. rewrite <- app_assoc. repeat split; try done. right; left.
    repeat split; try done. exists c. by right. }
  eexists _, [_; _]. rewrite <- app_assoc. repeat split; try done.
  right; right. done.
Qed.

(** A hit whose health flag is unset always probes: its first call is
    [DB()] on the cached connection. *)
Lemma GetTenantDB_hit_probes ctx K db st :
  K ≠ "" →
  tenantDBs (store st) !! K = Some db →
  flag (healthCheckDone (store st)) K = false →
  ∃ o rest,
    calls (world (GetTenantDB ctx K st).2)
    = (calls (world st) ++ (EvDB db, o) :: rest)%list.
Proof.
  intros HK Hin Hoff.
  destruct (GetTenantDB_hit_cases ctx K db st HK Hin)
    as (st1 & new & Hrun & _ & Hcalls & Hcases).
  rewrite Hrun. simpl. rewrite Hcalls.
  destruct Hcases as [(Hon & _)|[(_ & [c [->| ->]] & _)|(_ & -> & _)]];
    [congruence|by eexists _, _..].
Qed.

(** C7 (as the code has it): on a hit, [GetTenantDB] returns the cached
    connection with a nil error and keeps the record, whatever the probe
    does.  With the flag set it makes no call.  With the flag unset it
    calls [DB()] and then [PingContext]; when either fails the store and
    the goroutines are as before, so the next hit probes again; when both
    succeed [healthCheckDone[K]] is set and a goroutine is started that
    sleeps [HealthCheckInterval] and then clears the flag. *)
Theorem GetTenantDB_probe_outcome (ctx ctx' : Context) (K : string) (db : conn)
    (st : Machine) (c : error) :
  K ≠ "" →
  tenantDBs (store st) !! K = Some db →
  let w := world st in
  let s := store st in
  let failedDB :=
    mkMachine s (mkWorld (calls w ++ [(EvDB db, Some c)])%list
                   (next_conn w) (sleeping w)) in
  let failedPing :=
    mkMachine s (mkWorld (calls w ++ [(EvDB db, None); (EvPing ctx db, Some c)])%list
                   (next_conn w) (sleeping w)) in
  let pinged :=
    mkMachine (mkStore (masterDB s) (tenantDBs s) (config s)
                 (<[K := true]> (healthCheckDone s)))
      (mkWorld (calls w ++ [(EvDB db, None); (EvPing ctx db, None)])%list
         (next_conn w)
         (sleeping w ++ [(K, HealthCheckInterval (config s))])%list) in
  (flag (healthCheckDone s) K = true → GetTenantDB ctx K st = (Ok db, st)) ∧
  (flag (healthCheckDone s) K = false →
   oracle (calls w) (EvDB db) = Some c →
   GetTenantDB ctx K st = (Ok db, failedDB) ∧
   ∃ o rest, calls (world (GetTenantDB ctx' K failedDB).2)
             = (calls (world failedDB) ++ (EvDB db, o) :: rest)%list) ∧
  (flag (healthCheckDone s) K = false →
   oracle (calls w) (EvDB db) = None →
   oracle (calls w ++ [(EvDB db, None)])%list (EvPing ctx db) = Some c →
   GetTenantDB ctx K st = (Ok db, failedPing) ∧
   ∃ o rest, calls (world (GetTenantDB ctx' K failedPing).2)
             = (calls (world failedPing) ++ (EvDB db, o) :: rest)%list) ∧
  (flag (healthCheckDone s) K = false →
   oracle (calls w) (EvDB db) = None →
   oracle (calls w ++ [(EvDB db, None)])%list (EvPing ctx db) = None →
   GetTenantDB ctx K st = (Ok db, pinged) ∧
   GetTenantDB ctx' K pinged = (Ok db, pinged) ∧
   tenantDBs (store (wakeReset K pinged).2) !! K = Some db ∧
   healthCheckDone (store (wakeReset K pinged).2) !! K = Some false).
Proof.
  intros HK Hin w s failedDB failedPing pinged.
  subst failedDB failedPing pinged w s.
  assert (Hrun : GetTenantDB ctx K st
                 = (let* _ := healthCheckWithInterval ctx K db in ret (Ok db)) st).
  { unfold GetTenantDB. rewrite decide_False by done.
    unfold bind at 1, getStore. by rewrite Hin. }
  split; [|split; [|split]].
  - intros Hon. rewrite Hrun. unfold healthCheckWithInterval. unmonad.
    by rewrite Hon.
  - intros Hoff Hdb. split.
    + rewrite Hrun. unfold healthCheckWithInterval. unmonad.
      rewrite Hoff. by rewrite Hdb.
    + by apply GetTenantDB_hit_probes.
  - intros Hoff Hdb Hping. split.
    + rewrite Hrun. unfold healthCheckWithInterval. unmonad.
      rewrite Hoff, Hdb. simpl. unfold call in *. rewrite Hping. simpl.
      by rewrite <- app_assoc.
    + by apply GetTenantDB_hit_probes.
  - intros Hoff Hdb Hping. split; [|split; [|split]].
    + rewrite Hrun. unfold healthCheckWithInterval. unmonad.
      rewrite Hoff, Hdb. simpl. unfold call in *. rewrite Hping. simpl.
      by rewrite <- app_assoc.
    + unfold GetTenantDB. rewrite decide_False by done.
      unfold bind at 1, getStore. simpl. rewrite Hin.
      unfold healthCheckWithInterval. unmonad. unfold flag.
      by rewrite lookup_insert_eq.
    + by rewrite wakeReset_tenantDBs.
    + unfold wakeReset. rewrite decide_True.
      * unfold resetHealthCheck. unmonad. by rewrite lookup_insert_eq.
      * simpl. rewrite fmap_app. apply elem_of_app. right. by left.
Qed.

(** ** Further properties of the store *)

(** *** New *)

Lemma range_empty : range ∅ = [].
Proof.
  apply Permutation_nil_r. rewrite range_perm. by rewrite map_to_list_empty.
Qed.

(** [New] with a config makes one call, [gorm.Open] on the master DSN.
    When it succeeds the store holds the fresh pointer as master and no
    tenant, so [GetAllTenantSchemas] is empty; when it fails there is no
    store and the driver's error comes back wrapped. *)
Theorem New_opens_master_only (cfg : Config) (w : World) :
  ∃ o r w1,
    New (Some cfg) w = (r, w1) ∧
    calls w1 = (calls w ++ [(EvOpen (MasterDSN cfg), o)])%list ∧
    match o with
    | None =>
        ∃ s, r = Ok s ∧ masterDB s = next_conn w ∧ config s = cfg ∧
             tenantDBs s = ∅ ∧ healthCheckDone s = ∅ ∧
             next_conn w1 = S (next_conn w) ∧
             (GetAllTenantSchemas (mkMachine s w1)).1 = []
    | Some c =>
        r = Err (Errorf "failed to connect to master database: %w" [AErr c]) ∧
        next_conn w1 = next_conn w
    end.
Proof.
  unfold New, gorm_Open. unmonad.
  destruct (oracle (calls w) (EvOpen (MasterDSN cfg))) as [c|] eqn:Hopen; simpl.
  - exists (Some c). eexists _, _. by repeat split.
  - exists None. eexists _, _. repeat split. eexists. repeat split.
    unfold GetAllTenantSchemas. unmonad. by rewrite range_empty.
Qed.

(** *** One tenant's calls leave the other tenants alone *)

Lemma healthCheckWithInterval_flags ctx k db st K :
  K ≠ k →
  healthCheckDone (store (healthCheckWithInterval ctx k db st).2) !! K
  = healthCheckDone (store st) !! K.
Proof.
  intros Hne. unfold healthCheckWithInterval. unmonad.
  destruct (flag _ _); [done|].
  destruct (oracle _ (EvDB db)); simpl; [done|].
  destruct (oracle _ (EvPing ctx db)); simpl; [done|].
  by rewrite lookup_insert_ne.
Qed.

Lemma createLocked_flags ctx k st K :
  K ≠ k →
  healthCheckDone (store (createLocked ctx k st).2) !! K
  = healthCheckDone (store st) !! K.
Proof.
  intros Hne. unfold createLocked, ensureSchema, gorm_Open. unmonad.
  destruct (tenantDBs (store st) !! k); [done|].
  destruct (oracle _ (EvExec _ _ _)); simpl; [done|].
  destruct (oracle _ (EvOpen _)); simpl; [done|].
  destruct (AutoMigrate _ && _); simpl.
  - destruct (oracle _ (EvAutoMigrate _ _)); simpl; [done|].
    by rewrite lookup_insert_ne.
  - by rewrite lookup_insert_ne.
Qed.

Lemma GetTenantDB_flags ctx k st K :
  K ≠ k →
  healthCheckDone (store (GetTenantDB ctx k st).2) !! K
  = healthCheckDone (store st) !! K.
Proof.
  intros Hne. unfold GetTenantDB. case_decide; [done|].
  unfold bind at 1, getStore.
  destruct (tenantDBs (store st) !! k) as [db|].
  - unfold bind.
    pose proof (healthCheckWithInterval_flags ctx k db st K Hne) as Hh.
    by destruct (healthCheckWithInterval ctx k db st) as [[] st1].
  - by apply createLocked_flags.
Qed.

Lemma RemoveTenantDB_flags k st K :
  K ≠ k →
  healthCheckDone (store (RemoveTenantDB k st).2) !! K
  = healthCheckDone (store st) !! K.
Proof.
  intros Hne. unfold RemoveTenantDB. unmonad.
  destruct (tenantDBs (store st) !! k); [|done].
  destruct (oracle _ (EvDB _)); simpl; [done|].
  destruct (oracle _ (EvClose _)); simpl; [done|].
  by rewrite lookup_delete_ne.
Qed.

(** Getting or removing tenant [k], whether it succeeds or fails, changes
    neither the connection nor the health flag recorded for another
    tenant [K]. *)
Theorem other_tenants_untouched (ctx : Context) (k K : string) (st : Machine) :
  K ≠ k →
  (tenantDBs (store (GetTenantDB ctx k st).2) !! K = tenantDBs (store st) !! K ∧
   healthCheckDone (store (GetTenantDB ctx k st).2) !! K
   = healthCheckDone (store st) !! K) ∧
  (tenantDBs (store (RemoveTenantDB k st).2) !! K = tenantDBs (store st) !! K ∧
   healthCheckDone (store (RemoveTenantDB k st).2) !! K
   = healthCheckDone (store st) !! K).
Proof.
  intros Hne. split; split.
  - destruct (GetTenantDB ctx k st) as [r st1] eqn:Hrun.
    apply GetTenantDB_store in Hrun. simpl.
    destruct r as [db|e]; rewrite Hrun; [by rewrite lookup_insert_ne|done].
  - by apply GetTenantDB_flags.
  - destruct (RemoveTenantDB k st) as [r st1] eqn:Hrun.
    apply RemoveTenantDB_store in Hrun. simpl.
    destruct r as [e|]; rewrite Hrun; [done|by rewrite lookup_delete_ne].
  - by apply RemoveTenantDB_flags.
Qed.

(** *** What a call can do to the pointers *)

(** Case on every answer of the driver that the goal mentions. *)
Ltac ask_oracle :=
  repeat match goal with
         | |- context [oracle ?h ?e] => destruct (oracle h e) eqn:?; simpl
         end.

Lemma closeTenants_next_conn entries errs st :
  next_conn (world (closeTenants entries errs st).2) = next_conn (world st).
Proof.
  revert errs st. induction entries as [|[schema db] entries IH]; intros errs st.
  { reflexivity. }
  simpl. unmonad.
  destruct (oracle _ (EvDB db)); simpl; [by rewrite IH|].
  destruct (oracle _ (EvClose db)); simpl; by rewrite IH.
Qed.

Lemma Close_next_conn st :
  next_conn (world (Close st).2) = next_conn (world st).
Proof.
  unfold Close. unfold bind at 1 2, getStore.
  pose proof (closeTenants_next_conn (range (tenantDBs (store st))) [] st) as H1.
  destruct (closeTenants _ _ st) as [errs st1]. simpl in *.
  unfold bind at 1. rewrite <- H1.
  unfold closeMaster. unmonad. ask_oracle; by destruct (0 <? _)%nat.
Qed.

Ltac map_step_done :=
  intros [= <- <-]; unfold map_step; simpl; repeat split; auto.

Lemma GetTenantDB_step ctx k st r st1 :
  GetTenantDB ctx k st = (r, st1) → map_step st st1.
Proof.
  unfold GetTenantDB. case_decide; [map_step_done|].
  unfold bind at 1, getStore.
  destruct (tenantDBs (store st) !! k) as [db|] eqn:Hk.
  - unfold healthCheckWithInterval. unmonad.
    destruct (flag _ _); simpl; [map_step_done|].
    ask_oracle; map_step_done.
  - unfold createLocked, ensureSchema, gorm_Open. unmonad. rewrite Hk.
    destruct (AutoMigrate _ && _); ask_oracle; map_step_done;
      right; right; exists k; by (repeat split).
Qed.

Lemma RemoveTenantDB_step k st r st1 :
  RemoveTenantDB k st = (r, st1) → map_step st st1.
Proof.
  unfold RemoveTenantDB. unmonad.
  destruct (tenantDBs (store st) !! k) as [db|] eqn:Hk; [|map_step_done].
  ask_oracle; map_step_done. right; left. by exists k.
Qed.

Lemma run_op_step o st : map_step st (run_op o st).2.
Proof.
  destruct o as [ctx k|k| | | |k]; simpl; unfold bind.
  - destruct (GetTenantDB ctx k st) as [r st1] eqn:Hrun.
    by apply GetTenantDB_step in Hrun.
  - destruct (RemoveTenantDB k st) as [r st1] eqn:Hrun.
    by apply RemoveTenantDB_step in Hrun.
  - pose proof (Close_store st) as Hs. pose proof (Close_next_conn st) as Hn.
    destruct (Close st) as [r st1]. simpl in *. unfold map_step.
    rewrite Hs, Hn. by (repeat split; auto).
  - by (unfold map_step; repeat split; auto).
  - by (unfold map_step; repeat split; auto).
  - unfold wakeReset, resetHealthCheck, map_step.
    case_decide; by (repeat split; auto).
Qed.

Lemma run_op_pointers o st :
  pointers_distinct st → pointers_distinct (run_op o st).2.
Proof.
  intros (Hm & Hold & Hinj).
  destruct (run_op_step o st) as (Hmaster & _ & Hmono & Hmap).
  unfold pointers_distinct. rewrite Hmaster.
  destruct Hmap as [->|[[k ->]|(k & Habs & -> & Hnext)]].
  - split; [lia|]. split; [|done].
    intros k' db Hin. destruct (Hold k' db Hin). split; [lia|done].
  - split; [lia|]. split.
    + intros k' db [_ Hin]%lookup_delete_Some. destruct (Hold k' db Hin).
      split; [lia|done].
    + intros k1 k2 db [_ H1]%lookup_delete_Some [_ H2]%lookup_delete_Some.
      by eapply Hinj.
  - rewrite Hnext. split; [lia|]. split.
    + intros k' db [[_ <-]|[_ Hin]]%lookup_insert_Some; [split; lia|].
      destruct (Hold k' db Hin). split; [lia|done].
    + intros k1 k2 db [[<- <-]|[Hne1 H1]]%lookup_insert_Some
                      [[<- Heq]|[Hne2 H2]]%lookup_insert_Some; try done.
      * destruct (Hold k2 _ H2). lia.
      * destruct (Hold k1 _ H1). lia.
      * by eapply Hinj.
Qed.

Lemma run_ops_pointers ops st :
  pointers_distinct st → pointers_distinct (run_ops ops st).2.
Proof.
  revert st. induction ops as [|o ops IH]; intros st Hst; [done|].
  simpl. unfold bind.
  pose proof (run_op_pointers o st Hst) as Hst'.
  destruct (run_op o st) as [[] st1]. by apply IH.
Qed.

(** In a store built by [New], after any sequence of calls: two tenants
    never share a connection and no tenant holds the master connection. *)
Theorem connections_never_shared (cfg : Config) (w w1 : World) (s : TenantStore)
    (ops : list op) :
  New (Some cfg) w = (Ok s, w1) →
  let st := (run_ops ops (mkMachine s w1)).2 in
  (∀ k db, tenantDBs (store st) !! k = Some db → db ≠ masterDB (store st)) ∧
  (∀ k1 k2 db, tenantDBs (store st) !! k1 = Some db →
               tenantDBs (store st) !! k2 = Some db → k1 = k2).
Proof.
  intros Hnew st.
  assert (Hinit : pointers_distinct (mkMachine s w1)).
  { revert Hnew. unfold New, gorm_Open. unmonad. ask_oracle; intros [= <- <-].
    unfold pointers_distinct. simpl. split; [lia|]. split.
    - intros k db Hin. by rewrite lookup_empty in Hin.
    - intros k1 k2 db Hin. by rewrite lookup_empty in Hin. }
  destruct (run_ops_pointers ops _ Hinit) as (_ & Hold & Hinj). fold st in Hold, Hinj.
  split; [|done]. intros k db Hin. by destruct (Hold k db Hin).
Qed.

Lemma run_ops_master ops st :
  masterDB (store (run_ops ops st).2) = masterDB (store st) ∧
  config (store (run_ops ops st).2) = config (store st).
Proof.
  revert st. induction ops as [|o ops IH]; intros st; [done|].
  simpl. unfold bind.
  destruct (run_op_step o st) as (Hm & Hc & _).
  destruct (run_op o st) as [[] st1]. simpl in *.
  destruct (IH st1) as [-> ->]. by rewrite Hm, Hc.
Qed.

(** [GetMasterDB] changes nothing and, whatever calls were made in
    between, returns the same master connection; the config is never
    replaced either. *)
Theorem GetMasterDB_stable (ops : list op) (st : Machine) :
  GetMasterDB st = (masterDB (store st), st) ∧
  (GetMasterDB (run_ops ops st).2).1 = (GetMasterDB st).1 ∧
  config (store (run_ops ops st).2) = config (store st).
Proof.
  destruct (run_ops_master ops st) as [Hm Hc].
  split; [done|]. split; [|done]. unfold GetMasterDB. unmonad. exact Hm.
Qed.

(** *** The health flag between probes *)

(** After a hit whose ping succeeded, further hits on the same tenant
    make no call at all and change nothing, until the reset goroutine
    wakes; the first hit after that probes again. *)
Theorem health_check_debounced (ctx ctx' : Context) (K : string) (db : conn)
    (st st1 : Machine) (r : result conn) :
  K ≠ "" →
  tenantDBs (store st) !! K = Some db →
  GetTenantDB ctx K st = (r, st1) →
  calls (world st1) = (calls (world st) ++ [(EvDB db, None); (EvPing ctx db, None)])%list →
  GetTenantDB ctx' K st1 = (Ok db, st1) ∧
  ∃ o rest,
    calls (world (GetTenantDB ctx' K (wakeReset K st1).2).2)
    = (calls (world st1) ++ (EvDB db, o) :: rest)%list.
Proof.
  intros HK Hin Hrun Hlog.
  destruct (GetTenantDB_hit_cases ctx K db st HK Hin)
    as (st1' & new & Hrun' & Hdbs & Hcalls & Hcases).
  rewrite Hrun in Hrun'. injection Hrun' as -> <-.
  rewrite Hlog in Hcalls. apply app_inv_head in Hcalls. subst new.
  destruct Hcases as [(_ & [=] & _)|[(_ & [c [[=]|[=]]] & _)|(_ & _ & Hflag & Hsleep)]].
  assert (Hin1 : tenantDBs (store st1) !! K = Some db) by by rewrite Hdbs.
  split.
  - destruct (GetTenantDB_hit_cases ctx' K db st1 HK Hin1)
      as (st2 & new & Hrun2 & _ & _ & Hcases).
    rewrite Hrun2.
    destruct Hcases as [(_ & _ & ->)|[(Hoff & _)|(Hoff & _)]]; [done| |];
      unfold flag in Hoff; by rewrite Hflag, lookup_insert_eq in Hoff.
  - set (st2 := (wakeReset K st1).2).
    assert (Hst2 : tenantDBs (store st2) !! K = Some db ∧
                   flag (healthCheckDone (store st2)) K = false ∧
                   calls (world st2) = calls (world st1)).
    { unfold st2, wakeReset. rewrite decide_True.
      - unfold resetHealthCheck. unmonad. unfold flag.
        by rewrite lookup_insert_eq.
      - rewrite Hsleep, fmap_app. apply elem_of_app. right. by left. }
    destruct Hst2 as (Hin2 & Hoff & Hsame).
    destruct (GetTenantDB_hit_cases ctx' K db st2 HK Hin2)
      as (st3 & new & Hrun3 & _ & Hcalls3 & Hcases).
    rewrite Hrun3. simpl. rewrite Hcalls3, Hsame.
    destruct Hcases as [(Hon & _)|[(_ & [c [->| ->]] & _)|(_ & -> & _)]];
      [congruence|by eexists _, _..].
Qed.

(** *** GetAllTenantSchemas *)

Lemma range_NoDup_keys m : NoDup ((range m).*1).
Proof. rewrite range_perm. apply NoDup_fst_map_to_list. Qed.

Lemma range_keys m k : k ∈ (range m).*1 ↔ is_Some (m !! k).
Proof.
  rewrite range_perm. split.
  - intros ((k' & db) & -> & Hin)%list_elem_of_fmap.
    apply elem_of_map_to_list in Hin. by eexists.
  - intros [db Hin]. apply list_elem_of_fmap. exists (k, db). split; [done|].
    by apply elem_of_map_to_list.
Qed.

(** [GetAllTenantSchemas] changes nothing and returns every cached key
    exactly once: no duplicates, as many names as there are records. *)
Theorem GetAllTenantSchemas_lists_cached (st : Machine) :
  (GetAllTenantSchemas st).2 = st ∧
  NoDup (GetAllTenantSchemas st).1 ∧
  (∀ k, k ∈ (GetAllTenantSchemas st).1 ↔ is_Some (tenantDBs (store st) !! k)) ∧
  length (GetAllTenantSchemas st).1 = size (tenantDBs (store st)).
Proof.
  unfold GetAllTenantSchemas. unmonad.
  split; [done|]. split; [apply range_NoDup_keys|]. split; [apply range_keys|].
  rewrite length_fmap, range_perm. by rewrite length_map_to_list.
Qed.

(** *** Removing and getting again *)


(** *** A successful construction *)

Lemma createLocked_success ctx K st db st1 :
  tenantDBs (store st) !! K = None →
  createLocked ctx K st = (Ok db, st1) →
  db = next_conn (world st) ∧
  next_conn (world st1) = S db ∧
  tenantDBs (store st1) = <[K := db]> (tenantDBs (store st)) ∧
  healthCheckDone (store st1) = <[K := false]> (healthCheckDone (store st)) ∧
  sleeping (world st1) = sleeping (world st) ∧
  calls (world st1)
  = (calls (world st)
       ++ [(EvExec ctx (masterDB (store st)) ("CREATE SCHEMA IF NOT EXISTS " ++ K), None);
           (EvOpen (GetTenantDSN (config (store st)) K), None)]
       ++ (if AutoMigrate (config (store st)) && (0 <? length (Models (config (store st))))%nat
           then [(EvAutoMigrate db (Models (config (store st))), None)]
           else []))%list.
Proof.
  intros Habs. unfold createLocked, ensureSchema, gorm_Open. unmonad. rewrite Habs.
  destruct (AutoMigrate _ && _); ask_oracle; intros [= <- <-]; simpl;
    rewrite <- ?app_assoc; by repeat split.
Qed.

(** The first successful [GetTenantDB] for a tenant records the next fresh
    pointer for it, with its health flag unset, and the store holds one
    tenant more; no goroutine is started. *)
Theorem GetTenantDB_miss_records_fresh_pointer (ctx : Context) (K : string)
    (db : conn) (st st1 : Machine) :
  K ≠ "" →
  tenantDBs (store st) !! K = None →
  GetTenantDB ctx K st = (Ok db, st1) →
  db = next_conn (world st) ∧
  next_conn (world st1) = S db ∧
  tenantDBs (store st1) !! K = Some db ∧
  healthCheckDone (store st1) !! K = Some false ∧
  size (tenantDBs (store st1)) = S (size (tenantDBs (store st))) ∧
  sleeping (world st1) = sleeping (world st).
Proof.
  intros HK Habs Hrun. rewrite GetTenantDB_miss_is_createLocked in Hrun by done.
  destruct (createLocked_success ctx K st db st1 Habs Hrun)
    as (Hdb & Hnext & Hmap & Hflag & Hsleep & _).
  rewrite Hmap, Hflag, !lookup_insert_eq, map_size_insert_None by done.
  by repeat split.
Qed.

(** The calls of a successful construction are, in order: CREATE SCHEMA on
    the master connection, [gorm.Open] on the tenant's DSN, and
    [AutoMigrate] on the new connection exactly when [AutoMigrate] is set
    and [Models] is not empty. *)
Theorem GetTenantDB_construction_calls (ctx : Context) (K : string)
    (db : conn) (st st1 : Machine) :
  K ≠ "" →
  tenantDBs (store st) !! K = None →
  GetTenantDB ctx K st = (Ok db, st1) →
  calls (world st1)
  = (calls (world st)
       ++ [(EvExec ctx (masterDB (store st)) ("CREATE SCHEMA IF NOT EXISTS " ++ K), None);
           (EvOpen (GetTenantDSN (config (store st)) K), None)]
       ++ (if AutoMigrate (config (store st)) && (0 <? length (Models (config (store st))))%nat
           then [(EvAutoMigrate db (Models (config (store st))), None)]
           else []))%list.
Proof.
  intros HK Habs Hrun. rewrite GetTenantDB_miss_is_createLocked in Hrun by done.
  by destruct (createLocked_success ctx K st db st1 Habs Hrun) as (_ & _ & _ & _ & _ & ?).
Qed.

(** *** What GetTenantDB never does *)

(** [GetTenantDB] makes at most three calls into gorm, and none of them
    closes a connection. *)
Theorem GetTenantDB_never_closes (ctx : Context) (k : string) (st : Machine) :
  ∃ new,
    calls (world (GetTenantDB ctx k st).2) = (calls (world st) ++ new)%list ∧
    Forall (λ c : call, is_close c.1 = false) new ∧
    (length new ≤ 3)%nat.
Proof.
  unfold GetTenantDB. case_decide.
  { exists []. simpl. rewrite app_nil_r. split; [done|]. split; [constructor|lia]. }
  unfold bind at 1, getStore.
  destruct (tenantDBs (store st) !! k) as [db|] eqn:Hk.
  - unfold healthCheckWithInterval. unmonad.
    destruct (flag _ _); simpl.
    { exists []. rewrite app_nil_r. split; [done|]. split; [constructor|simpl; lia]. }
    ask_oracle; rewrite <- ?app_assoc; simpl; eexists;
      (split; [reflexivity|]); simpl; (split; [by repeat constructor|lia]).
  - unfold createLocked, ensureSchema, gorm_Open. unmonad. rewrite Hk.
    destruct (AutoMigrate _ && _); ask_oracle; rewrite <- ?app_assoc; simpl;
      eexists; (split; [reflexivity|]); simpl; (split; [by repeat constructor|lia]).
Qed.

(** When the migration fails, the connection that was just opened is in
    no map and was not closed: the store is as before, only the pointer
    is used up. *)
Theorem failed_migration_leaves_connection_open (ctx : Context) (K : string)
    (st st1 : Machine) (args : list arg) :
  K ≠ "" →
  GetTenantDB ctx K st
  = (Err (Errorf "failed to auto-migrate models: %w" args), st1) →
  store st1 = store st ∧
  next_conn (world st1) = S (next_conn (world st)) ∧
  ∃ new c,
    calls (world st1) = (calls (world st) ++ new)%list ∧
    (EvOpen (GetTenantDSN (config (store st)) K), None) ∈ new ∧
    (EvAutoMigrate (next_conn (world st)) (Models (config (store st))), Some c) ∈ new ∧
    Forall (λ c : call, is_close c.1 = false) new.
Proof.
  intros HK Hrun.
  assert (Habs : tenantDBs (store st) !! K = None).
  { destruct (tenantDBs (store st) !! K) as [db|] eqn:Hin; [|done].
    destruct (GetTenantDB_hit ctx K db st HK Hin) as (? & ? & Hhit & _).
    by rewrite Hhit in Hrun. }
  rewrite GetTenantDB_miss_is_createLocked in Hrun by done.
  revert Hrun. unfold createLocked, ensureSchema, gorm_Open. unmonad. rewrite Habs.
  destruct (AutoMigrate _ && _); ask_oracle; intros Heq; simplify_eq; simpl in *.
  split; [done|]. split; [done|].
  eexists [_; _; _], _. rewrite <- !app_assoc. simpl. split; [done|].
  split; [|split; [|by repeat constructor]].
  - right. by left.
  - right. right. by left.
Qed.

End Store.

(** ** Concrete runs *)

Example freshMachine_is_New :
  New okOracle (Some (DefaultConfig "dsn")) (mkWorld [] 1 [])
  = (Ok (store freshMachine), world freshMachine).
Proof. vm_compute. reflexivity. Qed.

Example acmeMachine_is_GetTenantDB :
  GetTenantDB okOracle 0 "acme" freshMachine = (Ok 2, acmeMachine).
Proof. vm_compute. reflexivity. Qed.

Example betaFailed_is_GetTenantDB :
  GetTenantDB (openFailsOnce "dsn&search_path=beta,public") 0 "beta" acmeMachine
  = (Err (Errorf "failed to connect to tenant database: %w"
            [AErr (DriverError "dial tcp: connection refused")]), betaFailed).
Proof. vm_compute. reflexivity. Qed.

(** C2: on a hit whose health flag is not set, the ping is not deferred:
    [GetTenantDB] itself calls [DB()] and [PingContext] and returns only
    after both have answered; the one thing handed to a goroutine is the
    later reset of the flag. *)
Theorem GetTenantDB_hit_pings_before_returning :
  GetTenantDB okOracle 7 "acme" acmeMachine
  = (Ok 2,
     {| store := {| masterDB := 1; tenantDBs := {["acme" := 2]};
                    config := DefaultConfig "dsn";
                    healthCheckDone := {["acme" := true]} |};
        world := {| calls := (calls (world acmeMachine)
                              ++ [(EvDB 2, None); (EvPing 7 2, None)])%list;
                    next_conn := 3; sleeping := [("acme", (5 * minute)%Z)] |} |}).
Proof. vm_compute. reflexivity. Qed.

Lemma GetTenantDB_cached_same_instance_witness :
  GetTenantDB okOracle 0 "acme" freshMachine = (Ok 2, acmeMachine) ∧
  stays_live okOracle map_to_list "acme" demoOps acmeMachine ∧
  let st2 := (run_ops okOracle map_to_list demoOps acmeMachine).2 in
  ∃ st3 new,
    GetTenantDB okOracle 9 "acme" st2 = (Ok 2, st3) ∧
    tenantDBs (store st3) = tenantDBs (store st2) ∧
    calls (world st3) = (calls (world st2) ++ new)%list ∧
    Forall (λ c : call, is_construction c.1 = false) new.
Proof.
  assert (H1 : GetTenantDB okOracle 0 "acme" freshMachine = (Ok 2, acmeMachine))
    by (vm_compute; reflexivity).
  assert (H2 : stays_live okOracle map_to_list "acme" demoOps acmeMachine)
    by (vm_compute; repeat split; eexists; reflexivity).
  split; [exact H1|]. split; [exact H2|].
  exact (GetTenantDB_cached_same_instance okOracle map_to_list 0 9 "acme" 2
           freshMachine acmeMachine demoOps H1 H2).
Defined.

Lemma GetTenantDB_failure_leaves_no_record_witness :
  "beta" ≠ "" ∧
  tenantDBs (store acmeMachine) !! "beta" = None ∧
  tenantDBs (store modelMachine) !! "acme" = None ∧
  (* provisioning fails *)
  GetTenantDB execFails 0 "beta" acmeMachine
  = (Err (Errorf "failed to ensure schema: %w"
            [AErr (Errorf "failed to create schema: %w"
                     [AErr (DriverError "permission denied for database")])]),
     mkMachine (store acmeMachine)
       (mkWorld (calls (world acmeMachine)
                   ++ [(EvExec 0 1 "CREATE SCHEMA IF NOT EXISTS beta",
                        Some (DriverError "permission denied for database"))])%list
          3 [])) ∧
  (* open fails *)
  GetTenantDB (openFailsOnce "dsn&search_path=beta,public") 0 "beta" acmeMachine
  = (Err (Errorf "failed to connect to tenant database: %w"
            [AErr (DriverError "dial tcp: connection refused")]), betaFailed) ∧
  (* migration fails *)
  GetTenantDB migrateFails 0 "acme" modelMachine
  = (Err (Errorf "failed to auto-migrate models: %w"
            [AErr (DriverError "migration failed")]),
     mkMachine (store modelMachine)
       (mkWorld (calls (world modelMachine)
                   ++ [(EvExec 0 1 "CREATE SCHEMA IF NOT EXISTS acme", None);
                       (EvOpen "dsn&search_path=acme,public", None);
                       (EvAutoMigrate 2 ["Product"],
                        Some (DriverError "migration failed"))])%list
          3 [])) ∧
  (* after the failed open: no record, and the next call starts over *)
  store betaFailed = store acmeMachine ∧
  tenantDBs (store betaFailed) !! "beta" = None ∧
  ∃ r st2 o rest,
    GetTenantDB (openFailsOnce "dsn&search_path=beta,public") 1 "beta" betaFailed
      = (r, st2) ∧
    calls (world st2) =
      (calls (world betaFailed)
         ++ (EvExec 1 1 "CREATE SCHEMA IF NOT EXISTS beta", o) :: rest)%list ∧
    (o = None →
     ∃ o' rest', rest = (EvOpen "dsn&search_path=beta,public", o') :: rest') ∧
    match r with
    | Ok db => tenantDBs (store st2) !! "beta" = Some db
    | Err _ => tenantDBs (store st2) !! "beta" = None
    end.
Proof.
  assert (HK : "beta" ≠ "") by discriminate.
  assert (HK' : "acme" ≠ "") by discriminate.
  assert (Habs : tenantDBs (store acmeMachine) !! "beta" = None)
    by (vm_compute; reflexivity).
  assert (Habs' : tenantDBs (store modelMachine) !! "acme" = None)
    by (vm_compute; reflexivity).
  split; [exact HK|]. split; [exact Habs|]. split; [exact Habs'|].
  split.
  { exact (proj1 (GetTenantDB_failure_leaves_no_record execFails 0 1 "beta"
                    acmeMachine (DriverError "permission denied for database")
                    HK Habs) eq_refl). }
  pose proof (GetTenantDB_failure_leaves_no_record
                (openFailsOnce "dsn&search_path=beta,public") 0 1 "beta"
                acmeMachine (DriverError "dial tcp: connection refused") HK Habs)
    as (_ & Hopen & _ & Hafter).
  assert (Hrun := Hopen eq_refl eq_refl).
  split; [exact Hrun|].
  split.
  { exact (proj1 (proj2 (proj2
             (GetTenantDB_failure_leaves_no_record migrateFails 0 1 "acme"
                modelMachine (DriverError "migration failed") HK' Habs')))
             eq_refl eq_refl eq_refl eq_refl). }
  exact (Hafter _ _ Hrun).
Defined.

(** The retry of the witness above does succeed, with a new connection. *)
Example betaFailed_retry :
  (GetTenantDB (openFailsOnce "dsn&search_path=beta,public") 1 "beta" betaFailed).1
  = Ok 3.
Proof. vm_compute. reflexivity. Qed.

(** C4, refuted as stated: after [Close] on a store caching "acme",
    [GetAllTenantSchemas] still lists "acme". *)
Lemma Close_then_list_counterexample :
  (GetAllTenantSchemas map_to_list (Close okOracle map_to_list acmeMachine).2).1
  = ["acme"] ∧
  (GetAllTenantSchemas map_to_list (Close okOracle map_to_list acmeMachine).2).1
  ≠ [].
Proof. split; [vm_compute; reflexivity | vm_compute; discriminate]. Qed.

Lemma Close_keeps_records_witness :
  (∀ m : gmap string conn, map_to_list m ≡ₚ map_to_list m) ∧
  ∃ r st1 new,
    Close closeFails map_to_list acmeMachine = (r, st1) ∧
    calls (world st1) = (calls (world acmeMachine) ++ new)%list ∧
    (∀ k db, tenantDBs (store acmeMachine) !! k = Some db → close_attempted db new) ∧
    store st1 = store acmeMachine ∧
    ∀ k, k ∈ (GetAllTenantSchemas map_to_list st1).1
         ↔ is_Some (tenantDBs (store acmeMachine) !! k).
Proof.
  assert (Hperm : ∀ m : gmap string conn, map_to_list m ≡ₚ map_to_list m)
    by (intros m; reflexivity).
  split; [exact Hperm|].
  exact (Close_keeps_records closeFails map_to_list Hperm acmeMachine).
Defined.

(** C5, refuted as stated: when [Close()] fails, [RemoveTenantDB] returns
    the wrapped failure and "acme" is still in the map. *)
Lemma RemoveTenantDB_close_fails_counterexample :
  (RemoveTenantDB closeFails "acme" acmeMachine).1
  = Some (Errorf "failed to close connection: %w"
            [AErr (DriverError "sql: close failed")]) ∧
  tenantDBs (store (RemoveTenantDB closeFails "acme" acmeMachine).2) !! "acme"
  = Some 2 ∧
  tenantDBs (store (RemoveTenantDB closeFails "acme" acmeMachine).2) !! "acme"
  ≠ None.
Proof.
  split; [vm_compute; reflexivity|].
  split; [vm_compute; reflexivity | vm_compute; discriminate].
Qed.

Lemma RemoveTenantDB_present_witness :
  tenantDBs (store acmeMachine) !! "acme" = Some 2 ∧
  ∃ r st1 o rest,
    RemoveTenantDB closeFails "acme" acmeMachine = (r, st1) ∧
    calls (world st1) = (calls (world acmeMachine) ++ (EvDB 2, o) :: rest)%list ∧
    (o = None → ∃ o', rest = [(EvClose 2, o')]) ∧
    match r with
    | None =>
        o = None ∧ rest = [(EvClose 2, None)] ∧
        tenantDBs (store st1) = delete "acme" (tenantDBs (store acmeMachine)) ∧
        healthCheckDone (store st1) = delete "acme" (healthCheckDone (store acmeMachine))
    | Some e =>
        store st1 = store acmeMachine ∧
        tenantDBs (store st1) !! "acme" = Some 2 ∧
        ((∃ c, o = Some c ∧ rest = [] ∧
               e = Errorf "failed to get underlying DB: %w" [AErr c]) ∨
         (∃ c, o = None ∧ rest = [(EvClose 2, Some c)] ∧
               e = Errorf "failed to close connection: %w" [AErr c]))
    end.
Proof.
  assert (Hin : tenantDBs (store acmeMachine) !! "acme" = Some 2)
    by (vm_compute; reflexivity).
  split; [exact Hin|].
  exact (RemoveTenantDB_present closeFails "acme" 2 acmeMachine Hin).
Defined.

Lemma Close_attempts_and_reports_all_witness :
  (∀ m : gmap string conn, map_to_list m ≡ₚ map_to_list m) ∧
  ∃ r st1 tnew mnew errs,
    Close closeFails map_to_list acmeMachine = (r, st1) ∧
    calls (world st1) = (calls (world acmeMachine) ++ tnew ++ mnew)%list ∧
    (∀ k db, tenantDBs (store acmeMachine) !! k = Some db → close_attempted db tnew) ∧
    close_attempted (masterDB (store acmeMachine)) mnew ∧
    Forall (λ c : call, c.1 = EvDB (masterDB (store acmeMachine))
                        ∨ c.1 = EvClose (masterDB (store acmeMachine))) mnew ∧
    Forall2 (λ e c, cause e = Some c) errs (failures (tnew ++ mnew)) ∧
    r = match errs with
        | [] => None
        | _ :: _ => Some (Errorf "errors closing connections: %v" [AErrs errs])
        end.
Proof.
  assert (Hperm : ∀ m : gmap string conn, map_to_list m ≡ₚ map_to_list m)
    by (intros m; reflexivity).
  split; [exact Hperm|].
  exact (Close_attempts_and_reports_all closeFails map_to_list Hperm acmeMachine).
Defined.

(** What [Close] returns when both closes fail: both failures, in order. *)
Example Close_two_failures :
  (Close closeFails map_to_list acmeMachine).1
  = Some (Errorf "errors closing connections: %v"
            [AErrs [Errorf "failed to close connection for %s: %w"
                      [AStr "acme"; AErr (DriverError "sql: close failed")];
                    Errorf "failed to close master connection: %w"
                      [AErr (DriverError "sql: close failed")]]]).
Proof. vm_compute. reflexivity. Qed.

(** C7, refuted as stated: what the probe leaves behind depends on its
    outcome.  After a successful probe the flag is set, not cleared; after
    a failed one the verification state is what it was, not updated. *)
Lemma probe_state_depends_on_outcome_counterexample :
  flag (healthCheckDone (store (GetTenantDB okOracle 7 "acme" acmeMachine).2)) "acme"
  ≠ false ∧
  healthCheckDone (store (GetTenantDB pingFails 7 "acme" acmeMachine).2)
  = healthCheckDone (store acmeMachine) ∧
  flag (healthCheckDone (store (GetTenantDB okOracle 7 "acme" acmeMachine).2)) "acme"
  ≠ flag (healthCheckDone (store (GetTenantDB pingFails 7 "acme" acmeMachine).2)) "acme".
Proof.
  split; [vm_compute; discriminate|].
  split; [vm_compute; reflexivity | vm_compute; discriminate].
Qed.

Lemma GetTenantDB_probe_outcome_witness :
  "acme" ≠ "" ∧
  tenantDBs (store acmeMachine) !! "acme" = Some 2 ∧
  (* flag set: no call *)
  GetTenantDB okOracle 8 "acme" acmePinged = (Ok 2, acmePinged) ∧
  (* DB() fails *)
  GetTenantDB dbFails 7 "acme" acmeMachine
  = (Ok 2, mkMachine (store acmeMachine)
             (mkWorld (calls (world acmeMachine)
                         ++ [(EvDB 2, Some (DriverError "invalid db"))])%list 3 [])) ∧
  (* the ping fails, and the next hit probes again *)
  GetTenantDB pingFails 7 "acme" acmeMachine
  = (Ok 2, mkMachine (store acmeMachine)
             (mkWorld (calls (world acmeMachine)
                         ++ [(EvDB 2, None);
                             (EvPing 7 2, Some (DriverError "driver: bad connection"))])%list
                3 [])) ∧
  GetTenantDB pingFails 8 "acme"
    (mkMachine (store acmeMachine)
       (mkWorld (calls (world acmeMachine)
                   ++ [(EvDB 2, None);
                       (EvPing 7 2, Some (DriverError "driver: bad connection"))])%list
          3 []))
  = (Ok 2, mkMachine (store acmeMachine)
             (mkWorld (calls (world acmeMachine)
                         ++ [(EvDB 2, None);
                             (EvPing 7 2, Some (DriverError "driver: bad connection"));
                             (EvDB 2, None);
                             (EvPing 8 2, Some (DriverError "driver: bad connection"))])%list
                3 [])) ∧
  (* the ping succeeds *)
  GetTenantDB okOracle 7 "acme" acmeMachine = (Ok 2, acmePinged) ∧
  sleeping (world acmePinged) = [("acme", HealthCheckInterval (DefaultConfig "dsn"))] ∧
  tenantDBs (store (wakeReset "acme" acmePinged).2) !! "acme" = Some 2 ∧
  healthCheckDone (store (wakeReset "acme" acmePinged).2) !! "acme" = Some false.
Proof.
  assert (HK : "acme" ≠ "") by discriminate.
  assert (Hin : tenantDBs (store acmeMachine) !! "acme" = Some 2)
    by (vm_compute; reflexivity).
  assert (Hin' : tenantDBs (store acmePinged) !! "acme" = Some 2)
    by (vm_compute; reflexivity).
  split; [exact HK|]. split; [exact Hin|].
  split.
  { exact (proj1 (GetTenantDB_probe_outcome okOracle 8 8 "acme" 2 acmePinged
                    (DriverError "") HK Hin') eq_refl). }
  split.
  { exact (proj1 (proj1 (proj2
             (GetTenantDB_probe_outcome dbFails 7 8 "acme" 2 acmeMachine
                (DriverError "invalid db") HK Hin)) eq_refl eq_refl)). }
  split.
  { exact (proj1 (proj1 (proj2 (proj2
             (GetTenantDB_probe_outcome pingFails 7 8 "acme" 2 acmeMachine
                (DriverError "driver: bad connection") HK Hin)))
             eq_refl eq_refl eq_refl)). }
  split.
  { exact (proj1 (proj1 (proj2 (proj2
             (GetTenantDB_probe_outcome pingFails 8 9 "acme" 2
                (mkMachine (store acmeMachine)
                   (mkWorld (calls (world acmeMachine)
                               ++ [(EvDB 2, None);
                                   (EvPing 7 2,
                                    Some (DriverError "driver: bad connection"))])%list
                      3 []))
                (DriverError "driver: bad connection") HK Hin)))
             eq_refl eq_refl eq_refl)). }
  pose proof (proj2 (proj2 (proj2
                (GetTenantDB_probe_outcome okOracle 7 8 "acme" 2 acmeMachine
                   (DriverError "") HK Hin))) eq_refl eq_refl eq_refl)
    as (Hrun & _ & Hkeep & Hreset).
  split; [exact Hrun|]. split; [reflexivity|]. split; [exact Hkeep|exact Hreset].
Defined.


(** ** Extras: strings *)

Lemma prefix_empty s : String.prefix "" s = true.
Proof. by destruct s. Qed.

Lemma index_cons c a s :
  index 0 (String c "") (String a s)
  = if ascii_dec c a then Some 0%nat
    else match index 0 (String c "") s with
         | Some n => Some (S n)
         | None => None
         end.
Proof. simpl. destruct (ascii_dec c a); by rewrite ?prefix_empty. Qed.

Lemma Index_nil c : Index "" (String c "") = (-1)%Z.
Proof. reflexivity. Qed.

Lemma Index_cons a s c :
  Index (String a s) (String c "")
  = if decide (a = c) then 0%Z
    else if decide (Index s (String c "") = (-1)%Z) then (-1)%Z
         else (1 + Index s (String c ""))%Z.
Proof.
  unfold Index. rewrite index_cons.
  destruct (ascii_dec c a) as [->|Hne].
  - by rewrite decide_True.
  - rewrite decide_False by done.
    destruct (index 0 (String c "") s) as [n|].
    + rewrite decide_False by lia. lia.
    + by rewrite decide_True.
Qed.

Lemma Index_nonneg s c : (-1 ≤ Index s (String c ""))%Z.
Proof.
  induction s as [|a s IH]; [done|].
  rewrite Index_cons. repeat case_decide; lia.
Qed.

Lemma Index_cons_none a s c :
  Index (String a s) (String c "") = (-1)%Z ↔ a ≠ c ∧ Index s (String c "") = (-1)%Z.
Proof.
  rewrite Index_cons. pose proof (Index_nonneg s c). split.
  - repeat case_decide; intros; (done || lia).
  - intros [Ha Hs]. rewrite decide_False by done. by rewrite decide_True.
Qed.

(** A string in which the byte occurs splits at its first occurrence. *)
Lemma Index_found s c :
  Index s (String c "") ≠ (-1)%Z →
  ∃ t r, s = t ++ String c r ∧ Index t (String c "") = (-1)%Z ∧
         Index s (String c "") = Z.of_nat (String.length t).
Proof.
  induction s as [|a s IH]; [done|].
  rewrite Index_cons. case_decide as Ha.
  - subst a. intros _. by exists "", s.
  - case_decide as Hs; [done|]. intros _.
    destruct (IH Hs) as (t & r & -> & Ht & Hlen).
    exists (String a t), r. split; [done|]. split.
    + by apply Index_cons_none.
    + rewrite Hlen. simpl. lia.
Qed.

Lemma append_nil_l r : "" ++ r = r.
Proof. reflexivity. Qed.

Lemma append_cons a t r : String a t ++ r = String a (t ++ r).
Proof. reflexivity. Qed.

Lemma Index_app_none t r c :
  Index (t ++ r) (String c "") = (-1)%Z →
  Index t (String c "") = (-1)%Z ∧ Index r (String c "") = (-1)%Z.
Proof.
  induction t as [|a t IH]; [done|].
  rewrite append_cons, !Index_cons_none. intros [Ha Hr].
  destruct (IH Hr) as [Ht Hr']. by repeat split.
Qed.

Lemma Index_app_sep t r c :
  Index t (String c "") = (-1)%Z →
  Index (t ++ String c r) (String c "") = Z.of_nat (String.length t).
Proof.
  induction t as [|a t IH].
  - intros _. rewrite append_nil_l, Index_cons. by rewrite decide_True.
  - intros [Ha Ht]%Index_cons_none. rewrite append_cons, Index_cons.
    rewrite decide_False by done. rewrite (IH Ht).
    rewrite decide_False by lia. simpl String.length. lia.
Qed.

Lemma slice_to_app t r :
  slice_to (t ++ r) (Z.of_nat (String.length t)) = t.
Proof.
  unfold slice_to. rewrite Nat2Z.id.
  induction t as [|a t IH]; [by destruct r|].
  rewrite append_cons. simpl. by rewrite IH.
Qed.

Lemma Split_nonempty s c : ∃ piece pieces, Split s c = piece :: pieces.
Proof.
  induction s as [|a s IH]; simpl; [by eexists _, _|].
  case_decide; [by eexists _, _|].
  destruct IH as (piece & pieces & ->). by eexists _, _.
Qed.

Lemma Split_none s c : Index s (String c "") = (-1)%Z → Split s c = [s].
Proof.
  induction s as [|a s IH]; simpl; [done|].
  intros [Ha Hs]%Index_cons_none. rewrite decide_False by done.
  by rewrite (IH Hs).
Qed.

Lemma Split_app_sep t r c :
  Index t (String c "") = (-1)%Z → Split (t ++ String c r) c = t :: Split r c.
Proof.
  induction t as [|a t IH].
  - intros _. rewrite append_nil_l. simpl. by rewrite decide_True.
  - intros [Ha Ht]%Index_cons_none. rewrite append_cons. simpl.
    rewrite decide_False by done. by rewrite (IH Ht).
Qed.

Lemma append_inv_head s a b : s ++ a = s ++ b → a = b.
Proof.
  induction s as [|c s IH]; [done|]. rewrite !append_cons. intros [= ?]. auto.
Qed.

Lemma length_append a b :
  String.length (a ++ b) = (String.length a + String.length b)%nat.
Proof.
  induction a as [|c a IH]; [done|]. rewrite append_cons. simpl. by rewrite IH.
Qed.

Lemma append_inv_tail a b s : a ++ s = b ++ s → a = b.
Proof.
  revert b. induction a as [|c a IH]; intros [|d b] Heq.
  - done.
  - apply (f_equal String.length) in Heq.
    rewrite append_nil_l, append_cons in Heq. simpl in Heq.
    rewrite length_append in Heq. lia.
  - apply (f_equal String.length) in Heq.
    rewrite append_nil_l, append_cons in Heq. simpl in Heq.
    rewrite length_append in Heq. lia.
  - rewrite !append_cons in Heq. injection Heq as -> Heq. by rewrite (IH b Heq).
Qed.

(** With [DefaultConfig], two tenants get the same DSN only when they
    are the same tenant. *)
Theorem DefaultConfig_DSN_injective (masterDSN k1 k2 : string) :
  GetTenantDSN (DefaultConfig masterDSN) k1 = GetTenantDSN (DefaultConfig masterDSN) k2 →
  k1 = k2.
Proof.
  unfold DefaultConfig, GetTenantDSN. intros Heq.
  apply append_inv_head, append_inv_head in Heq.
  by apply append_inv_tail in Heq.
Qed.


Lemma append_assoc a b c : (a ++ b) ++ c = a ++ (b ++ c).
Proof.
  induction a as [|x a IH]; [done|]. rewrite !append_cons. by rewrite IH.
Qed.

Lemma append_nil_r a : a ++ "" = a.
Proof. induction a as [|x a IH]; [done|]. rewrite append_cons. by rewrite IH. Qed.


(** ** Extras: resolvers *)

(** The host with its port cut off, as [SubdomainResolver] computes it. *)
Lemma strip_port host :
  let host' := if decide (Index host ":" ≠ (-1)%Z)
               then slice_to host (Index host ":") else host in
  Index host' ":" = (-1)%Z ∧
  ∃ port, host = host' ++ port ∧ (port = "" ∨ ∃ p, port = String ":" p).
Proof.
  simpl. case_decide as Hidx.
  - destruct (Index_found host ":" Hidx) as (t & r & -> & Ht & ->).
    rewrite slice_to_app. split; [done|]. exists (String ":" r).
    split; [done|]. right. by eexists.
  - split; [done|]. exists "". rewrite append_nil_r. by auto.
Qed.

Lemma SubdomainResolver_on host c :
  Middleware.Hostname c = host →
  Index host ":" = (-1)%Z →
  Middleware.SubdomainResolver c
  = let parts := Split host "." in
    if decide (2 ≤ length parts)%nat then
      if decide (nth 0 parts "" = "www" ∨ nth 0 parts "" = "api"
                 ∨ nth 0 parts "" = "localhost") then subdomainError
      else if decide (length parts = 2%nat ∧ nth 1 parts "" ≠ "localhost")
           then subdomainError
           else (nth 0 parts "", None)
    else subdomainError.
Proof.
  intros <- Hidx. unfold Middleware.SubdomainResolver. rewrite Hidx.
  by destruct (decide ((-1)%Z ≠ (-1)%Z)).
Qed.

(** The port does not matter: a host followed by ":port" resolves as the
    host alone does. *)
Theorem SubdomainResolver_ignores_port (c c' : Middleware.Ctx) (port : string) :
  Index (Middleware.Hostname c) ":" = (-1)%Z →
  Middleware.Hostname c' = Middleware.Hostname c ++ String ":" port →
  Middleware.SubdomainResolver c' = Middleware.SubdomainResolver c.
Proof.
  intros Hnone Hhost.
  rewrite (SubdomainResolver_on (Middleware.Hostname c) c) by done.
  unfold Middleware.SubdomainResolver. rewrite Hhost.
  rewrite Index_app_sep by done.
  destruct (decide (Z.of_nat (String.length (Middleware.Hostname c)) ≠ (-1)%Z));
    [|lia].
  by rewrite slice_to_app.
Qed.

(** Whatever [SubdomainResolver] returns as tenant is the first label of
    the host: the host starts with it followed by a dot, it contains
    neither dot nor colon, and it is none of www, api, localhost. *)
Theorem SubdomainResolver_sound (c : Middleware.Ctx) (tenant : string) :
  Middleware.SubdomainResolver c = (tenant, None) →
  tenant ≠ "www" ∧ tenant ≠ "api" ∧ tenant ≠ "localhost" ∧
  Index tenant "." = (-1)%Z ∧ Index tenant ":" = (-1)%Z ∧
  ∃ rest, Middleware.Hostname c = tenant ++ String "." rest.
Proof.
  unfold Middleware.SubdomainResolver.
  destruct (strip_port (Middleware.Hostname c)) as (Hcolon & port & Hhost & _).
  revert Hcolon Hhost.
  generalize (if decide (Index (Middleware.Hostname c) ":" ≠ (-1)%Z)
              then slice_to (Middleware.Hostname c) (Index (Middleware.Hostname c) ":")
              else Middleware.Hostname c).
  intros host Hcolon Hhost. simpl.
  destruct (decide (Index host "." = (-1)%Z)) as [Hnodot|Hdot].
  { rewrite Split_none by done. simpl. by intros [=]. }
  destruct (Index_found host "." Hdot) as (t & r & -> & Ht & _).
  rewrite Split_app_sep by done. simpl.
  repeat case_decide; intros [= <-]; try done.
  apply Index_app_none in Hcolon as [Htc _].
  repeat split; try tauto.
  exists (r ++ port). rewrite Hhost. by rewrite append_assoc, append_cons.
Qed.



Lemma substring_all r : substring 0 (String.length r) r = r.
Proof. induction r as [|a r IH]; simpl; [done|]. by rewrite IH. Qed.

Lemma prefix_cons c a s :
  String.prefix (String c "") (String a s) = if ascii_dec c a then true else false.
Proof. simpl. destruct (ascii_dec c a); by rewrite ?prefix_empty. Qed.

Lemma TrimPrefix_slash r : TrimPrefix (String "/" r) "/" = r.
Proof.
  unfold TrimPrefix. simpl. rewrite prefix_empty.
  rewrite Nat.sub_0_r. apply substring_all.
Qed.

Lemma TrimPrefix_other a r : a ≠ "/"%char → TrimPrefix (String a r) "/" = String a r.
Proof.
  intros Hne. unfold TrimPrefix.
  assert (Hpre : String.prefix "/" (String a r) = false).
  { rewrite prefix_cons. destruct (ascii_dec "/" a) as [Heq|_]; [by destruct Hne|done]. }
  by rewrite Hpre.
Qed.


(** The first piece of a path once its leading slash is trimmed. *)
Lemma PathPrefixResolver_on c :
  Middleware.PathPrefixResolver c
  = let piece := nth 0 (Split (TrimPrefix (Middleware.Path c) "/") "/") "" in
    if decide (piece = "") then pathError else (piece, None).
Proof.
  unfold Middleware.PathPrefixResolver. simpl.
  destruct (Split_nonempty (TrimPrefix (Middleware.Path c) "/") "/")
    as (piece & pieces & ->). simpl.
  destruct (decide (piece = "")) as [->|Hne].
  - by rewrite decide_False by (intros [_ ?]; done).
  - by rewrite decide_True by (split; [lia|done]).
Qed.

(** [PathPrefixResolver] returns [tenant] exactly when [tenant] is not
    empty, has no slash, and the path is the tenant, optionally after one
    leading slash, optionally followed by a slash and more. *)
Theorem PathPrefixResolver_spec (c : Middleware.Ctx) (tenant : string) :
  Middleware.PathPrefixResolver c = (tenant, None) ↔
  tenant ≠ "" ∧ Index tenant "/" = (-1)%Z ∧
  ∃ rest, (rest = "" ∨ ∃ r, rest = String "/" r) ∧
          (Middleware.Path c = tenant ++ rest ∨
           Middleware.Path c = String "/" (tenant ++ rest)).
Proof.
  rewrite PathPrefixResolver_on. simpl. split.
  - assert (Htrim : ∃ p, TrimPrefix (Middleware.Path c) "/" = p ∧
                         (Middleware.Path c = p ∨ Middleware.Path c = String "/" p)).
    { destruct (Middleware.Path c) as [|a r]; [by eexists; auto|].
      destruct (decide (a = "/"%char)) as [->|Hne].
      - rewrite TrimPrefix_slash. by eexists; auto.
      - rewrite TrimPrefix_other by done. by eexists; auto. }
    destruct Htrim as (p & -> & Hpath).
    destruct (decide (Index p "/" = (-1)%Z)) as [Hnone|Hfound].
    + rewrite Split_none by done. simpl.
      case_decide; [done|]. intros [= <-]. split; [done|]. split; [done|].
      exists "". rewrite append_nil_r. by auto.
    + destruct (Index_found p "/" Hfound) as (t & r & -> & Ht & _).
      rewrite Split_app_sep by done. simpl.
      case_decide; [done|]. intros [= <-]. split; [done|]. split; [done|].
      exists (String "/" r). split; [right; by eexists|done].
  - intros (Hne & Hnoslash & rest & Hrest & Hpath).
    assert (Htrim : TrimPrefix (Middleware.Path c) "/" = tenant ++ rest).
    { destruct Hpath as [->| ->]; [|apply TrimPrefix_slash].
      destruct tenant as [|a t]; [done|]. rewrite append_cons.
      apply Index_cons_none in Hnoslash as [Ha _]. by apply TrimPrefix_other. }
    rewrite Htrim.
    destruct Hrest as [->|[r ->]].
    + rewrite append_nil_r, Split_none by done. simpl. by rewrite decide_False.
    + rewrite Split_app_sep by done. simpl. by rewrite decide_False.
Qed.


(** *** ChainResolvers *)

Lemma chainLoop_result resolvers c :
  Middleware.chainLoop resolvers c = chainError ∨
  ∃ tenant, tenant ≠ "" ∧ Middleware.chainLoop resolvers c = (tenant, None) ∧
            ∃ r, r ∈ resolvers ∧ r c = (tenant, None).
Proof.
  induction resolvers as [|r resolvers IH]; simpl; [by left|].
  destruct (r c) as [tenant [err|]] eqn:Hr.
  - destruct IH as [IH|(t & Ht & Hrun & r' & Hin & Hr')]; [by left|].
    right. exists t. repeat split; [done..|]. exists r'. split; [by right|done].
  - case_decide as Hne.
    + right. exists tenant. repeat split; [done..|]. exists r. split; [by left|done].
    + destruct IH as [IH|(t & Ht & Hrun & r' & Hin & Hr')]; [by left|].
      right. exists t. repeat split; [done..|]. exists r'. split; [by right|done].
Qed.


Lemma chainLoop_app rs1 rs2 c :
  Middleware.chainLoop (rs1 ++ rs2)%list c
  = match Middleware.chainLoop rs1 c with
    | (tenant, None) => (tenant, None)
    | (_, Some _) => Middleware.chainLoop rs2 c
    end.
Proof.
  induction rs1 as [|r rs1 IH]; simpl; [done|].
  destruct (r c) as [tenant [err|]]; [done|]. by case_decide.
Qed.

(** Chains nest: a chain of two chains tries the same resolvers in the
    same order as the single chain of all of them. *)
Theorem ChainResolvers_flatten (rs1 rs2 : list Middleware.TenantResolver)
    (c : Middleware.Ctx) :
  Middleware.ChainResolvers
    [Middleware.ChainResolvers rs1; Middleware.ChainResolvers rs2] c
  = Middleware.ChainResolvers (rs1 ++ rs2)%list c.
Proof.
  unfold Middleware.ChainResolvers. rewrite chainLoop_app. simpl.
  destruct (chainLoop_result rs1 c) as [->|(t1 & Ht1 & -> & _)].
  - simpl.
    destruct (chainLoop_result rs2 c) as [->|(t2 & Ht2 & -> & _)]; [done|].
    by rewrite decide_True.
  - by rewrite decide_True.
Qed.

(** A header or query-parameter resolver at the head of a chain wins
    whenever its value is set, whatever the resolvers after it would say;
    when the value is empty the chain goes on to the rest. *)
Theorem ChainResolvers_value_first (name : string)
    (rest : list Middleware.TenantResolver) (c : Middleware.Ctx) :
  Middleware.ChainResolvers (Middleware.HeaderResolver name :: rest) c
  = (if decide (Middleware.Get c name = "")
     then Middleware.ChainResolvers rest c
     else (Middleware.Get c name, None)) ∧
  Middleware.ChainResolvers (Middleware.QueryParamResolver name :: rest) c
  = (if decide (Middleware.Query c name = "")
     then Middleware.ChainResolvers rest c
     else (Middleware.Query c name, None)).
Proof.
  unfold Middleware.ChainResolvers, Middleware.HeaderResolver,
    Middleware.QueryParamResolver. simpl.
  split.
  - destruct (decide (Middleware.Get c name = "")) as [He|Hne]; [done|].
    by rewrite decide_True.
  - destruct (decide (Middleware.Query c name = "")) as [He|Hne]; [done|].
    by rewrite decide_True.
Qed.

(** ** Extras: the middleware *)

Lemma New_handler {S : Type} errorText (cfg : Middleware.Config S) rest h :
  Middleware.New errorText (cfg :: rest) = Middleware.Returns h →
  is_Some (Middleware.Store cfg) ∧
  h = Middleware.handle (Middleware.withDefaults errorText cfg).
Proof.
  unfold Middleware.New. simpl.
  destruct (Middleware.Store cfg); [|done]. intros [= <-]. by split; [eexists|].
Qed.

(** [New] needs a store: without arguments, or with a config whose [Store]
    is nil, it panics; otherwise it returns a handler.  Configs after the
    first are ignored. *)
Theorem Middleware_New_requires_store {S : Type} (errorText : error → string)
    (cfg : Middleware.Config S) (rest : list (Middleware.Config S)) :
  Middleware.New errorText ([] : list (Middleware.Config S))
  = Middleware.Panics "TenantStore is required" ∧
  Middleware.New errorText (cfg :: rest) = Middleware.New errorText [cfg] ∧
  (Middleware.New errorText (cfg :: rest)
   = Middleware.Panics "TenantStore is required"
   ↔ Middleware.Store cfg = None) ∧
  ((∃ h, Middleware.New errorText (cfg :: rest) = Middleware.Returns h)
   ↔ is_Some (Middleware.Store cfg)).
Proof.
  split; [done|]. split; [done|]. unfold Middleware.New. simpl.
  destruct (Middleware.Store cfg) as [store|]; split; split; try done.
  - by eexists.
  - by intros [h ?].
Qed.

(** Step through the handler's monadic code. *)
Ltac step_handler :=
  unfold Middleware.handle, Middleware.fail, Middleware.withDefaults,
    Middleware.ConfigDefault, Middleware.defaultErrorHandler, Middleware.JSON,
    Middleware.Status, bind, ret in *; simpl in *.

(** A handler that [New] returned never calls through a nil value:
    resolver, error handler and store are all set. *)
Theorem Middleware_handler_never_calls_nil {S : Type} (errorText : error → string)
    (cfg : Middleware.Config S) (rest : list (Middleware.Config S))
    (h : Middleware.Handler S) (c : Middleware.Ctx) (st : S) :
  Middleware.New errorText (cfg :: rest) = Middleware.Returns h →
  (h c st).1.1 ≠ Middleware.NilCall.
Proof.
  intros [[store Hstore] ->]%New_handler. step_handler. rewrite Hstore.
  destruct (Middleware.Skip cfg) as [skip|]; [destruct (skip c); [done|]|];
    destruct (Middleware.Resolver cfg) as [resolver|];
    destruct (Middleware.ErrorHandler cfg) as [handler|];
    destruct (Middleware.OnTenantResolved cfg) as [callback|];
    repeat (simpl; match goal with
            | |- context [let '(_, _) := ?x in _] => destruct x as [? ?] eqn:?
            | |- context [match ?x with _ => _ end] => destruct x eqn:?
            end); done.
Qed.


Lemma Middleware_resolution_failure_aux {S : Type} errorText
    (cfg : Middleware.Config S) rest h c (st : S) tenant err :
  Middleware.New errorText (cfg :: rest) = Middleware.Returns h →
  (∀ skip, Middleware.Skip cfg = Some skip → skip c = false) →
  default Middleware.SubdomainResolver (Middleware.Resolver cfg) c = (tenant, Some err) →
  h c st
  = (let '(c', returned) :=
       default (Middleware.defaultErrorHandler errorText)
               (Middleware.ErrorHandler cfg) c err in
     (Middleware.Handled err returned, c'), st).
Proof.
  intros [_ ->]%New_handler Hskip Hres. step_handler.
  destruct (Middleware.Skip cfg) as [skip|]; [rewrite (Hskip skip eq_refl)|];
    destruct (Middleware.Resolver cfg) as [resolver|]; simpl in *; rewrite Hres;
    destruct (Middleware.ErrorHandler cfg) as [handler|]; simpl;
    try done; by destruct (handler c err).
Qed.


(** Without a custom [ErrorHandler], whatever made the handler fail (the
    resolver, the store or the callback), the response is status 400 with
    the JSON body error = tenant_resolution_failed and message =
    err.Error(), and the handler returns nil. *)
Theorem Middleware_default_error_response {S : Type} (errorText : error → string)
    (cfg : Middleware.Config S) (rest : list (Middleware.Config S))
    (h : Middleware.Handler S) (c c' : Middleware.Ctx) (st st' : S)
    (err : Middleware.gerror) (returned : option Middleware.gerror) :
  Middleware.New errorText (cfg :: rest) = Middleware.Returns h →
  Middleware.ErrorHandler cfg = None →
  h c st = ((Middleware.Handled err returned, c'), st') →
  returned = None ∧
  Middleware.status c' = 400 ∧
  Middleware.body c'
  = Some {[ "error" := "tenant_resolution_failed";
            "message" := Middleware.Error errorText err ]}.
Proof.
  intros [[store Hstore] ->]%New_handler Hnone. step_handler.
  rewrite Hstore, Hnone.
  destruct (Middleware.Skip cfg) as [skip|]; [destruct (skip c); [done|]|];
    destruct (Middleware.Resolver cfg) as [resolver|];
    destruct (Middleware.OnTenantResolved cfg) as [callback|];
    repeat (simpl; match goal with
            | |- context [let '(_, _) := ?x in _] => destruct x as [? ?] eqn:?
            | |- context [match ?x with _ => _ end] => destruct x eqn:?
            end); intros Heq; by simplify_eq.
Qed.

(** Reading back what was stored: [GetTenant] and [GetTenantDB] return
    the string, resp. the connection, stored under the key; an empty key
    argument means the default key; arguments after the first are
    ignored; and a value of the other type reads as missing. *)
Theorem context_getters_roundtrip (c : Middleware.Ctx) (key tenant : string)
    (db : conn) (more : list string) :
  let tkey := if decide (key = "") then "tenant" else key in
  let dkey := if decide (key = "") then "tenant_db" else key in
  Middleware.GetTenant
    (Middleware.setLocal tkey (Middleware.LString tenant) c) (key :: more) = tenant ∧
  Middleware.GetTenantDB
    (Middleware.setLocal dkey (Middleware.LDB db) c) (key :: more) = Some db ∧
  Middleware.GetTenant
    (Middleware.setLocal tkey (Middleware.LDB db) c) (key :: more) = "" ∧
  Middleware.GetTenantDB
    (Middleware.setLocal dkey (Middleware.LString tenant) c) (key :: more) = None ∧
  Middleware.GetTenant (Middleware.setLocal "tenant" (Middleware.LString tenant) c) []
  = tenant ∧
  Middleware.GetTenantDB (Middleware.setLocal "tenant_db" (Middleware.LDB db) c) []
  = Some db.
Proof.
  unfold Middleware.GetTenant, Middleware.GetTenantDB, Middleware.setLocal. simpl.
  destruct (decide (key = "")) as [->|Hne].
  - simpl. by rewrite !lookup_insert_eq.
  - rewrite !decide_True by done. by rewrite !lookup_insert_eq.
Qed.

(** *** The middleware over the tenant store *)

Lemma MustGetTenant_set c key ck dk tenant db :
  ck = (if decide (key = "") then "tenant" else key) →
  ck ≠ dk → tenant ≠ "" →
  Middleware.MustGetTenant
    (Middleware.setLocal dk (Middleware.LDB db)
       (Middleware.setLocal ck (Middleware.LString tenant) c)) [key]
  = Middleware.Returns tenant.
Proof.
  intros Hck Hne Ht.
  unfold Middleware.MustGetTenant, Middleware.GetTenant, Middleware.setLocal. simpl.
  assert (Hkey : (if decide (key ≠ "") then key else "tenant") = ck).
  { rewrite Hck. by destruct (decide (key = "")), (decide (key ≠ "")). }
  rewrite Hkey, lookup_insert_ne by done. rewrite lookup_insert_eq.
  by rewrite decide_False.
Qed.

Lemma MustGetTenantDB_set c key dk db :
  dk = (if decide (key = "") then "tenant_db" else key) →
  Middleware.MustGetTenantDB (Middleware.setLocal dk (Middleware.LDB db) c) [key]
  = Middleware.Returns db.
Proof.
  intros Hdk.
  unfold Middleware.MustGetTenantDB, Middleware.GetTenantDB, Middleware.setLocal. simpl.
  assert (Hkey : (if decide (key ≠ "") then key else "tenant_db") = dk).
  { rewrite Hdk. by destruct (decide (key = "")), (decide (key ≠ "")). }
  by rewrite Hkey, lookup_insert_eq.
Qed.


(** The handler up to the store call, when the request is not skipped and
    the tenant resolves. *)
Lemma handle_resolved oracle errorText (cfg : Middleware.Config Machine) c st tenant :
  Middleware.Store cfg = Some (asMiddlewareStore oracle) →
  Middleware.OnTenantResolved cfg = None →
  (∀ skip, Middleware.Skip cfg = Some skip → skip c = false) →
  default Middleware.SubdomainResolver (Middleware.Resolver cfg) c = (tenant, None) →
  let ck := if decide (Middleware.ContextKey cfg = "") then "tenant"
            else Middleware.ContextKey cfg in
  let dk := if decide (Middleware.DBContextKey cfg = "") then "tenant_db"
            else Middleware.DBContextKey cfg in
  let c1 := Middleware.setLocal ck (Middleware.LString tenant) c in
  Middleware.handle (Middleware.withDefaults errorText cfg) c st
  = match GetTenantDB oracle (Middleware.UserContext c) tenant st with
    | (Ok db, st') =>
        ((Middleware.Next, Middleware.setLocal dk (Middleware.LDB db) c1), st')
    | (Err e, st') =>
        (let '(c', returned) :=
           default (Middleware.defaultErrorHandler errorText)
                   (Middleware.ErrorHandler cfg) c1 (Middleware.StoreError e) in
         (Middleware.Handled (Middleware.StoreError e) returned, c'), st')
    end.
Proof.
  intros Hstore Hcb Hskip Hres. step_handler. rewrite Hstore, Hcb.
  destruct (Middleware.Skip cfg) as [skip|]; [rewrite (Hskip skip eq_refl)|];
    destruct (Middleware.Resolver cfg) as [resolver|]; simpl in *; rewrite Hres;
    destruct (GetTenantDB oracle _ tenant st) as [[db|e] st'];
    destruct (Middleware.ErrorHandler cfg) as [handler|]; simpl;
    try done; by destruct (handler _ _).
Qed.


(** When the handler passes a request on that it did not skip, the tenant
    it resolved is not empty, the store holds a connection for it, and
    [MustGetTenant] and [MustGetTenantDB], called with the configured
    keys, return that tenant and that connection without panicking
    (provided the two keys differ). *)
Theorem Middleware_next_provides_tenant (oracle : Oracle) (errorText : error → string)
    (cfg : Middleware.Config Machine) (rest : list (Middleware.Config Machine))
    (h : Middleware.Handler Machine) (c c' : Middleware.Ctx) (st st' : Machine) :
  Middleware.New errorText (cfg :: rest) = Middleware.Returns h →
  Middleware.Store cfg = Some (asMiddlewareStore oracle) →
  Middleware.OnTenantResolved cfg = None →
  (∀ skip, Middleware.Skip cfg = Some skip → skip c = false) →
  (if decide (Middleware.ContextKey cfg = "") then "tenant"
   else Middleware.ContextKey cfg)
  ≠ (if decide (Middleware.DBContextKey cfg = "") then "tenant_db"
     else Middleware.DBContextKey cfg) →
  h c st = ((Middleware.Next, c'), st') →
  ∃ tenant db,
    default Middleware.SubdomainResolver (Middleware.Resolver cfg) c = (tenant, None) ∧
    tenant ≠ "" ∧
    tenantDBs (store st') !! tenant = Some db ∧
    Middleware.MustGetTenant c' [Middleware.ContextKey cfg] = Middleware.Returns tenant ∧
    Middleware.MustGetTenantDB c' [Middleware.DBContextKey cfg] = Middleware.Returns db.
Proof.
  intros Hnew Hstore Hcb Hskip Hkeys Hrun.
  destruct (default Middleware.SubdomainResolver (Middleware.Resolver cfg) c)
    as [tenant [err|]] eqn:Hres.
  { rewrite (Middleware_resolution_failure_aux errorText cfg rest h c st tenant err)
      in Hrun by done.
    destruct (default _ _ _ _) as [? ?]. by simplify_eq. }
  apply New_handler in Hnew as [_ ->].
  rewrite (handle_resolved oracle errorText cfg c st tenant) in Hrun by done.
  destruct (GetTenantDB oracle _ tenant st) as [[db|e] st1] eqn:Hget.
  2:{ destruct (default _ _ _ _) as [? ?]. by simplify_eq. }
  simplify_eq. exists tenant, db. split; [done|].
  assert (Hne : tenant ≠ "").
  { intros ->. by rewrite GetTenantDB_guard in Hget. }
  split; [done|]. split; [by eapply GetTenantDB_Ok_recorded|].
  split.
  - by apply MustGetTenant_set.
  - by apply MustGetTenantDB_set.
Qed.


(** ** Extras on concrete runs *)

Lemma New_opens_master_only_witness :
  (∀ m : gmap string conn, map_to_list m ≡ₚ map_to_list m) ∧
  ∃ o r w1,
    New okOracle (Some (DefaultConfig "dsn")) (mkWorld [] 1 []) = (r, w1) ∧
    calls w1 = ([] ++ [(EvOpen "dsn", o)])%list ∧
    match o with
    | None =>
        ∃ s, r = Ok s ∧ masterDB s = 1 ∧ config s = DefaultConfig "dsn" ∧
             tenantDBs s = ∅ ∧ healthCheckDone s = ∅ ∧
             next_conn w1 = 2 ∧
             (GetAllTenantSchemas map_to_list (mkMachine s w1)).1 = []
    | Some c =>
        r = Err (Errorf "failed to connect to master database: %w" [AErr c]) ∧
        next_conn w1 = 1
    end.
Proof.
  assert (Hperm : ∀ m : gmap string conn, map_to_list m ≡ₚ map_to_list m)
    by (intros m; reflexivity).
  split; [exact Hperm|].
  exact (New_opens_master_only okOracle map_to_list Hperm (DefaultConfig "dsn")
           (mkWorld [] 1 [])).
Defined.

Lemma other_tenants_untouched_witness :
  "acme" ≠ "beta" ∧
  (tenantDBs (store (GetTenantDB okOracle 0 "beta" acmeMachine).2) !! "acme"
   = tenantDBs (store acmeMachine) !! "acme" ∧
   healthCheckDone (store (GetTenantDB okOracle 0 "beta" acmeMachine).2) !! "acme"
   = healthCheckDone (store acmeMachine) !! "acme") ∧
  (tenantDBs (store (RemoveTenantDB okOracle "beta" acmeMachine).2) !! "acme"
   = tenantDBs (store acmeMachine) !! "acme" ∧
   healthCheckDone (store (RemoveTenantDB okOracle "beta" acmeMachine).2) !! "acme"
   = healthCheckDone (store acmeMachine) !! "acme").
Proof.
  assert (Hne : "acme" ≠ "beta") by discriminate.
  split; [exact Hne|].
  exact (other_tenants_untouched okOracle 0 "beta" "acme" acmeMachine Hne).
Defined.

Lemma connections_never_shared_witness :
  New okOracle (Some (DefaultConfig "dsn")) (mkWorld [] 1 [])
  = (Ok (store freshMachine), world freshMachine) ∧
  let st := (run_ops okOracle map_to_list demoOps
               (mkMachine (store freshMachine) (world freshMachine))).2 in
  (∀ k db, tenantDBs (store st) !! k = Some db → db ≠ masterDB (store st)) ∧
  (∀ k1 k2 db, tenantDBs (store st) !! k1 = Some db →
               tenantDBs (store st) !! k2 = Some db → k1 = k2).
Proof.
  assert (Hnew : New okOracle (Some (DefaultConfig "dsn")) (mkWorld [] 1 [])
                 = (Ok (store freshMachine), world freshMachine))
    by (vm_compute; reflexivity).
  split; [exact Hnew|].
  exact (connections_never_shared okOracle map_to_list (DefaultConfig "dsn")
           (mkWorld [] 1 []) (world freshMachine) (store freshMachine) demoOps Hnew).
Defined.

Lemma health_check_debounced_witness :
  "acme" ≠ "" ∧
  GetTenantDB okOracle 7 "acme" acmeMachine = (Ok 2, acmePinged) ∧
  GetTenantDB okOracle 8 "acme" acmePinged = (Ok 2, acmePinged) ∧
  ∃ o rest,
    calls (world (GetTenantDB okOracle 8 "acme"
                    (wakeReset "acme" acmePinged).2).2)
    = (calls (world acmePinged) ++ (EvDB 2, o) :: rest)%list.
Proof.
  assert (HK : "acme" ≠ "") by discriminate.
  assert (Hin : tenantDBs (store acmeMachine) !! "acme" = Some 2)
    by (vm_compute; reflexivity).
  assert (Hrun : GetTenantDB okOracle 7 "acme" acmeMachine = (Ok 2, acmePinged))
    by (vm_compute; reflexivity).
  assert (Hlog : calls (world acmePinged)
                 = (calls (world acmeMachine)
                      ++ [(EvDB 2, None); (EvPing 7 2, None)])%list)
    by reflexivity.
  split; [exact HK|]. split; [exact Hrun|].
  exact (health_check_debounced okOracle 7 8 "acme" 2 acmeMachine acmePinged
           (Ok 2) HK Hin Hrun Hlog).
Defined.

Lemma GetAllTenantSchemas_lists_cached_witness :
  (∀ m : gmap string conn, map_to_list m ≡ₚ map_to_list m) ∧
  (GetAllTenantSchemas map_to_list acmeMachine).2 = acmeMachine ∧
  NoDup (GetAllTenantSchemas map_to_list acmeMachine).1 ∧
  (∀ k, k ∈ (GetAllTenantSchemas map_to_list acmeMachine).1
        ↔ is_Some (tenantDBs (store acmeMachine) !! k)) ∧
  length (GetAllTenantSchemas map_to_list acmeMachine).1
  = size (tenantDBs (store acmeMachine)).
Proof.
  assert (Hperm : ∀ m : gmap string conn, map_to_list m ≡ₚ map_to_list m)
    by (intros m; reflexivity).
  split; [exact Hperm|].
  exact (GetAllTenantSchemas_lists_cached map_to_list Hperm acmeMachine).
Defined.


Lemma GetTenantDB_miss_records_fresh_pointer_witness :
  tenantDBs (store freshMachine) !! "acme" = None ∧
  GetTenantDB okOracle 0 "acme" freshMachine = (Ok 2, acmeMachine) ∧
  2 = next_conn (world freshMachine) ∧
  next_conn (world acmeMachine) = 3 ∧
  tenantDBs (store acmeMachine) !! "acme" = Some 2 ∧
  healthCheckDone (store acmeMachine) !! "acme" = Some false ∧
  size (tenantDBs (store acmeMachine)) = S (size (tenantDBs (store freshMachine))) ∧
  sleeping (world acmeMachine) = sleeping (world freshMachine).
Proof.
  assert (HK : "acme" ≠ "") by discriminate.
  assert (Habs : tenantDBs (store freshMachine) !! "acme" = None)
    by (vm_compute; reflexivity).
  assert (Hrun : GetTenantDB okOracle 0 "acme" freshMachine = (Ok 2, acmeMachine))
    by (vm_compute; reflexivity).
  split; [exact Habs|]. split; [exact Hrun|].
  exact (GetTenantDB_miss_records_fresh_pointer okOracle 0 "acme" 2 freshMachine
           acmeMachine HK Habs Hrun).
Defined.

Lemma GetTenantDB_construction_calls_witness :
  tenantDBs (store modelMachine) !! "acme" = None ∧
  GetTenantDB okOracle 0 "acme" modelMachine
  = (Ok 2, (GetTenantDB okOracle 0 "acme" modelMachine).2) ∧
  calls (world (GetTenantDB okOracle 0 "acme" modelMachine).2)
  = (calls (world modelMachine)
       ++ [(EvExec 0 (masterDB (store modelMachine))
              ("CREATE SCHEMA IF NOT EXISTS " ++ "acme"), None);
           (EvOpen (GetTenantDSN (config (store modelMachine)) "acme"), None)]
       ++ (if AutoMigrate (config (store modelMachine))
              && (0 <? length (Models (config (store modelMachine))))%nat
           then [(EvAutoMigrate 2 (Models (config (store modelMachine))), None)]
           else []))%list.
Proof.
  assert (HK : "acme" ≠ "") by discriminate.
  assert (Habs : tenantDBs (store modelMachine) !! "acme" = None)
    by (vm_compute; reflexivity).
  assert (Hrun : GetTenantDB okOracle 0 "acme" modelMachine
                 = (Ok 2, (GetTenantDB okOracle 0 "acme" modelMachine).2))
    by (vm_compute; reflexivity).
  split; [exact Habs|]. split; [exact Hrun|].
  exact (GetTenantDB_construction_calls okOracle 0 "acme" 2 modelMachine _
           HK Habs Hrun).
Defined.

Lemma failed_migration_leaves_connection_open_witness :
  GetTenantDB migrateFails 0 "acme" modelMachine
  = (Err (Errorf "failed to auto-migrate models: %w"
            [AErr (DriverError "migration failed")]),
     (GetTenantDB migrateFails 0 "acme" modelMachine).2) ∧
  let st1 := (GetTenantDB migrateFails 0 "acme" modelMachine).2 in
  store st1 = store modelMachine ∧
  next_conn (world st1) = S (next_conn (world modelMachine)) ∧
  ∃ new c,
    calls (world st1) = (calls (world modelMachine) ++ new)%list ∧
    (EvOpen (GetTenantDSN (config (store modelMachine)) "acme"), None) ∈ new ∧
    (EvAutoMigrate (next_conn (world modelMachine))
       (Models (config (store modelMachine))), Some c) ∈ new ∧
    Forall (λ c : call, is_close c.1 = false) new.
Proof.
  assert (HK : "acme" ≠ "") by discriminate.
  assert (Hrun : GetTenantDB migrateFails 0 "acme" modelMachine
                 = (Err (Errorf "failed to auto-migrate models: %w"
                           [AErr (DriverError "migration failed")]),
                    (GetTenantDB migrateFails 0 "acme" modelMachine).2))
    by (vm_compute; reflexivity).
  split; [exact Hrun|].
  exact (failed_migration_leaves_connection_open migrateFails 0 "acme" modelMachine
           _ _ HK Hrun).
Defined.

Lemma DefaultConfig_DSN_injective_witness :
  GetTenantDSN (DefaultConfig "dsn") "acme" = GetTenantDSN (DefaultConfig "dsn") "acme" ∧
  "acme" = "acme".
Proof.
  assert (Heq : GetTenantDSN (DefaultConfig "dsn") "acme"
                = GetTenantDSN (DefaultConfig "dsn") "acme") by reflexivity.
  split; [exact Heq|].
  exact (DefaultConfig_DSN_injective "dsn" "acme" "acme" Heq).
Defined.

Lemma SubdomainResolver_ignores_port_witness :
  Index "acme.example.com" ":" = (-1)%Z ∧
  Middleware.SubdomainResolver (request "acme.example.com:8080" "/")
  = Middleware.SubdomainResolver (request "acme.example.com" "/").
Proof.
  assert (Hnone : Index (Middleware.Hostname (request "acme.example.com" "/")) ":"
                  = (-1)%Z) by (vm_compute; reflexivity).
  split; [exact Hnone|].
  exact (SubdomainResolver_ignores_port (request "acme.example.com" "/")
           (request "acme.example.com:8080" "/") "8080" Hnone eq_refl).
Defined.

Lemma SubdomainResolver_sound_witness :
  Middleware.SubdomainResolver (request "acme.example.com:8080" "/") = ("acme", None) ∧
  "acme" ≠ "www" ∧ "acme" ≠ "api" ∧ "acme" ≠ "localhost" ∧
  Index "acme" "." = (-1)%Z ∧ Index "acme" ":" = (-1)%Z ∧
  ∃ rest, Middleware.Hostname (request "acme.example.com:8080" "/")
          = "acme" ++ String "." rest.
Proof.
  assert (Hrun : Middleware.SubdomainResolver (request "acme.example.com:8080" "/")
                 = ("acme", None)) by (vm_compute; reflexivity).
  split; [exact Hrun|].
  exact (SubdomainResolver_sound (request "acme.example.com:8080" "/") "acme" Hrun).
Defined.



(** The middleware of the examples: every optional field left unset, over
    the tenant store on [okOracle]. *)
Notation "'demoCfg'" :=
  (Middleware.mkConfig None (Some (asMiddlewareStore okOracle)) None None "" "" None)
  (only parsing).
Notation "'demoHandler'" :=
  (Middleware.handle (Middleware.withDefaults errorFormat demoCfg)) (only parsing).
Notation "'healthSkip'" :=
  (λ c : Middleware.Ctx, String.eqb (Middleware.Path c) "/health") (only parsing).
Notation "'skipCfg'" :=
  (Middleware.mkConfig None (Some (asMiddlewareStore okOracle)) None
     (Some healthSkip) "" "" None) (only parsing).
Notation "'sameKeyCfg'" :=
  (Middleware.mkConfig None (Some (asMiddlewareStore okOracle)) None None "t" "t" None)
  (only parsing).
Notation "'subdomainErr'" :=
  (Middleware.NewError Middleware.StatusBadRequest "No valid tenant subdomain found")
  (only parsing).
Notation "'emptyErr'" :=
  (Middleware.StoreError (Errorf "tenant schema cannot be empty" [])) (only parsing).
Notation "'dotOut'" := (demoHandler (request ".example.com" "/") freshMachine)
  (only parsing).
Notation "'acmeOut'" := (demoHandler (request "acme.example.com" "/") freshMachine)
  (only parsing).
Notation "'sameKeyOut'" :=
  (Middleware.handle (Middleware.withDefaults errorFormat sameKeyCfg)
     (request "acme.example.com" "/") freshMachine) (only parsing).

Lemma Middleware_handler_never_calls_nil_witness :
  Middleware.New errorFormat [demoCfg] = Middleware.Returns demoHandler ∧
  (demoHandler (request "acme.example.com" "/") freshMachine).1.1 ≠ Middleware.NilCall.
Proof.
  assert (Hnew : Middleware.New errorFormat [demoCfg] = Middleware.Returns demoHandler)
    by reflexivity.
  split; [exact Hnew|].
  exact (Middleware_handler_never_calls_nil errorFormat demoCfg [] demoHandler
           (request "acme.example.com" "/") freshMachine Hnew).
Defined.



Lemma Middleware_default_error_response_witness :
  dotOut = ((Middleware.Handled emptyErr None, dotOut.1.2), dotOut.2) ∧
  (None : option Middleware.gerror) = None ∧
  Middleware.status dotOut.1.2 = 400 ∧
  Middleware.body dotOut.1.2
  = Some {[ "error" := "tenant_resolution_failed";
            "message" := Middleware.Error errorFormat emptyErr ]}.
Proof.
  assert (Hrun : dotOut = ((Middleware.Handled emptyErr None, dotOut.1.2), dotOut.2))
    by (vm_compute; reflexivity).
  split; [exact Hrun|].
  exact (Middleware_default_error_response errorFormat demoCfg [] demoHandler
           (request ".example.com" "/") dotOut.1.2 freshMachine dotOut.2
           emptyErr None eq_refl eq_refl Hrun).
Defined.


Lemma Middleware_next_provides_tenant_witness :
  acmeOut = ((Middleware.Next, acmeOut.1.2), acmeOut.2) ∧
  ∃ tenant db,
    Middleware.SubdomainResolver (request "acme.example.com" "/") = (tenant, None) ∧
    tenant ≠ "" ∧
    tenantDBs (store acmeOut.2) !! tenant = Some db ∧
    Middleware.MustGetTenant acmeOut.1.2 [""] = Middleware.Returns tenant ∧
    Middleware.MustGetTenantDB acmeOut.1.2 [""] = Middleware.Returns db.
Proof.
  assert (Hrun : acmeOut = ((Middleware.Next, acmeOut.1.2), acmeOut.2))
    by (vm_compute; reflexivity).
  assert (Hskip : ∀ skip, Middleware.Skip demoCfg = Some skip →
                          skip (request "acme.example.com" "/") = false)
    by (intros skip Hsome; discriminate Hsome).
  assert (Hkeys : (if decide (Middleware.ContextKey demoCfg = "") then "tenant"
                   else Middleware.ContextKey demoCfg)
                  ≠ (if decide (Middleware.DBContextKey demoCfg = "") then "tenant_db"
                     else Middleware.DBContextKey demoCfg))
    by (vm_compute; discriminate).
  split; [exact Hrun|].
  exact (Middleware_next_provides_tenant okOracle errorFormat demoCfg [] demoHandler
           (request "acme.example.com" "/") acmeOut.1.2 freshMachine acmeOut.2
           eq_refl eq_refl eq_refl Hskip Hkeys Hrun).
Defined.

